(** * surface_gpe: wake-up from suspend via the lid on MS Surface devices

    A shallow embedding of [module/surface_gpe.c].  The driver is a small
    piece of glue between three kernel services: the DMI identity table
    walk, the ACPI general purpose event (GPE) interface and the platform
    bus.  The embedding keeps the C functions as state-passing programs
    over a [world] that holds the firmware registers, the driver core's
    book-keeping, the module's one global and the log of every external
    call made so far.  What an external call answers is not in the hands
    of the driver, so every definition is parametrised by an [oracle]
    giving the status of the n-th external call. *)

From Stdlib Require Import ZArith String Ascii List Bool Lia.
From stdpp Require Import base option list gmap sets.
Import ListNotations.

Local Open Scope string_scope.
Local Open Scope list_scope.
Local Open Scope Z_scope.

(** ** Data model *)

(** [struct surface_lid_device]: the ACPI path of the lid device and the
    number of its GPE ([u32], never used in arithmetic). *)
Record surface_lid_device := {
  acpi_path : string;
  gpe_number : Z;
}.

Definition lid_device_l17 : surface_lid_device :=
  {| acpi_path := "\_SB.LID0"; gpe_number := 0x17 |}.

Definition lid_device_l4D : surface_lid_device :=
  {| acpi_path := "\_SB.LID0"; gpe_number := 0x4D |}.

Definition lid_device_l4F : surface_lid_device :=
  {| acpi_path := "\_SB.LID0"; gpe_number := 0x4F |}.

Definition lid_device_l57 : surface_lid_device :=
  {| acpi_path := "\_SB.LID0"; gpe_number := 0x57 |}.

(** The DMI fields the table refers to. *)
Inductive dmi_field := DMI_SYS_VENDOR | DMI_PRODUCT_NAME | DMI_PRODUCT_SKU.

(** One [DMI_EXACT_MATCH(slot, substr)] condition. *)
Record dmi_strmatch := {
  slot : dmi_field;
  substr : string;
}.

Definition DMI_EXACT_MATCH (f : dmi_field) (s : string) : dmi_strmatch :=
  {| slot := f; substr := s |}.

(** [struct dmi_system_id], with [driver_data] a pointer that may be NULL. *)
Record dmi_system_id := {
  ident : string;
  matches : list dmi_strmatch;
  driver_data : option surface_lid_device;
}.

(** The identity of the running system, as the platform reports it; a
    field the firmware does not fill in is absent. *)
Record system_identity := {
  sys_vendor : option string;
  product_name : option string;
  product_sku : option string;
}.

Definition dmi_ident (id : system_identity) (f : dmi_field) : option string :=
  match f with
  | DMI_SYS_VENDOR => sys_vendor id
  | DMI_PRODUCT_NAME => product_name id
  | DMI_PRODUCT_SKU => product_sku id
  end.

Definition surface_entry (name : string) (f : dmi_field) (value : string)
    (lid : surface_lid_device) : dmi_system_id :=
  {| ident := name;
     matches := [DMI_EXACT_MATCH DMI_SYS_VENDOR "Microsoft Corporation";
                 DMI_EXACT_MATCH f value];
     driver_data := Some lid |}.

(** [dmi_lid_device_table].  The array's closing [{ }] sentinel is the end
    of the list. *)
Definition dmi_lid_device_table : list dmi_system_id :=
  [ surface_entry "Surface Pro 4" DMI_PRODUCT_NAME "Surface Pro 4" lid_device_l17;
    surface_entry "Surface Pro 5" DMI_PRODUCT_SKU "Surface_Pro_1796" lid_device_l4F;
    surface_entry "Surface Pro 5 (LTE)" DMI_PRODUCT_SKU "Surface_Pro_1807" lid_device_l4F;
    surface_entry "Surface Pro 6" DMI_PRODUCT_NAME "Surface Pro 6" lid_device_l4F;
    surface_entry "Surface Pro 7" DMI_PRODUCT_NAME "Surface Pro 7" lid_device_l4D;
    surface_entry "Surface Book 1" DMI_PRODUCT_NAME "Surface Book" lid_device_l17;
    surface_entry "Surface Book 2" DMI_PRODUCT_NAME "Surface Book 2" lid_device_l17;
    surface_entry "Surface Book 3" DMI_PRODUCT_NAME "Surface Book 3" lid_device_l4D;
    surface_entry "Surface Laptop 1" DMI_PRODUCT_NAME "Surface Laptop" lid_device_l57;
    surface_entry "Surface Laptop 2" DMI_PRODUCT_NAME "Surface Laptop 2" lid_device_l57;
    surface_entry
      (String.append "Surface Laptop 3 (Intel 13"
         (String (ascii_of_nat 34) ")"))
      DMI_PRODUCT_SKU "Surface_Laptop_3_1867:1868" lid_device_l4D ].

(** ** The identity matcher *)

(** Modelled from the spec: the predicate evaluation behind
    [dmi_first_match] (the kernel's [dmi_matches], declared through
    [linux/dmi.h], body not in the repository).  Every condition of the
    entry must hold; a condition holds when the named identity attribute is
    present and equals the expected string exactly, case included. *)
Definition dmi_matches (id : system_identity) (d : dmi_system_id) : bool :=
  forallb
    (fun m => match dmi_ident id (slot m) with
              | Some s => String.eqb s (substr m)
              | None => false
              end)
    (matches d).

(** Modelled from the spec: [dmi_first_match], the kernel's table walk
    (declared through [linux/dmi.h], body not in the repository).  It goes
    through the table in order and returns the first entry whose predicate
    the identity satisfies, or nothing when the table is exhausted. *)
Fixpoint dmi_first_match (id : system_identity) (table : list dmi_system_id)
    : option dmi_system_id :=
  match table with
  | [] => None
  | d :: rest => if dmi_matches id d then Some d else dmi_first_match id rest
  end.

(** The descriptor [surface_gpe_init] works with:
    [match = dmi_first_match(table); if (!match) ...; lid = match->driver_data]. *)
Definition match_lid (id : system_identity) (table : list dmi_system_id)
    : option surface_lid_device :=
  match dmi_first_match id table with
  | None => None
  | Some m => driver_data m
  end.

(** ** The world outside the driver *)

(** [ACPI_GPE_ENABLE] and [ACPI_GPE_DISABLE], the two actions the driver
    passes to [acpi_set_gpe_wake_mask]. *)
Inductive gpe_action := ACPI_GPE_ENABLE | ACPI_GPE_DISABLE.

(** Every call that leaves the driver: five into the ACPI firmware
    interface, seven into the platform bus. *)
Inductive call :=
  | AcpiGetHandle (pathname : string)
  | AcpiMarkGpeForWake (gpe : Z)
  | AcpiEnableGpe (gpe : Z)
  | AcpiDisableGpe (gpe : Z)
  | AcpiSetGpeWakeMask (gpe : Z) (action : gpe_action)
  | PlatformDriverRegister
  | PlatformDriverUnregister
  | PlatformDeviceAlloc
  | PlatformDeviceAddData (data : option surface_lid_device)
  | PlatformDeviceAdd
  | PlatformDevicePut
  | PlatformDeviceUnregister.

Definition is_firmware_call (c : call) : bool :=
  match c with
  | AcpiGetHandle _ | AcpiMarkGpeForWake _ | AcpiEnableGpe _
  | AcpiDisableGpe _ | AcpiSetGpeWakeMask _ _ => true
  | _ => false
  end.

Definition firmware_calls (t : list call) : list call :=
  List.filter is_firmware_call t.

(** The firmware side of a GPE, as far as the interface shows it: whether
    it was marked as able to wake the system, how many runtime references
    keep it enabled, and whether its bit in the wake mask is set. *)
Record acpi_tables := {
  gpe_can_wake : gset Z;
  gpe_runtime_count : gmap Z nat;
  gpe_wake_mask : gset Z;
}.

(** [struct platform_device], reduced to the two pointers the driver uses. *)
Record platform_device := {
  platform_data : option surface_lid_device;
  drvdata : option surface_lid_device;
}.

(** The driver core's book-keeping: is the driver registered, the one
    device object (if allocated and not yet freed), is it on the bus, and
    is the driver bound to it (its probe returned 0). *)
Record driver_core := {
  driver_registered : bool;
  device : option platform_device;
  device_added : bool;
  device_bound : bool;
}.

(** [surface_gpe_device] is the module's global pointer: NULL ([false]) or
    pointing at the one device. *)
Record world := {
  acpi : acpi_tables;
  core : driver_core;
  surface_gpe_device : bool;
  trace : list call;
}.

Definition set_acpi (a : acpi_tables) (w : world) : world :=
  {| acpi := a; core := core w;
     surface_gpe_device := surface_gpe_device w; trace := trace w |}.

Definition set_core (c : driver_core) (w : world) : world :=
  {| acpi := acpi w; core := c;
     surface_gpe_device := surface_gpe_device w; trace := trace w |}.

Definition set_global (p : bool) (w : world) : world :=
  {| acpi := acpi w; core := core w; surface_gpe_device := p; trace := trace w |}.

Definition log (c : call) (w : world) : world :=
  {| acpi := acpi w; core := core w;
     surface_gpe_device := surface_gpe_device w; trace := trace w ++ [c] |}.

Definition set_driver_registered (b : bool) (c : driver_core) : driver_core :=
  {| driver_registered := b; device := device c;
     device_added := device_added c; device_bound := device_bound c |}.

Definition set_device (d : option platform_device) (c : driver_core) : driver_core :=
  {| driver_registered := driver_registered c; device := d;
     device_added := device_added c; device_bound := device_bound c |}.

Definition set_device_added (b : bool) (c : driver_core) : driver_core :=
  {| driver_registered := driver_registered c; device := device c;
     device_added := b; device_bound := device_bound c |}.

Definition set_device_bound (b : bool) (c : driver_core) : driver_core :=
  {| driver_registered := driver_registered c; device := device c;
     device_added := device_added c; device_bound := b |}.

Definition runtime_count (a : acpi_tables) (gpe : Z) : nat :=
  default 0%nat (gpe_runtime_count a !! gpe).

Definition mark_for_wake (gpe : Z) (a : acpi_tables) : acpi_tables :=
  {| gpe_can_wake := {[gpe]} ∪ gpe_can_wake a;
     gpe_runtime_count := gpe_runtime_count a;
     gpe_wake_mask := gpe_wake_mask a |}.

Definition add_reference (gpe : Z) (a : acpi_tables) : acpi_tables :=
  {| gpe_can_wake := gpe_can_wake a;
     gpe_runtime_count := <[gpe := S (runtime_count a gpe)]> (gpe_runtime_count a);
     gpe_wake_mask := gpe_wake_mask a |}.

Definition remove_reference (gpe : Z) (a : acpi_tables) : acpi_tables :=
  {| gpe_can_wake := gpe_can_wake a;
     gpe_runtime_count := <[gpe := Nat.pred (runtime_count a gpe)]> (gpe_runtime_count a);
     gpe_wake_mask := gpe_wake_mask a |}.

Definition write_wake_mask (gpe : Z) (action : gpe_action) (a : acpi_tables)
    : acpi_tables :=
  {| gpe_can_wake := gpe_can_wake a;
     gpe_runtime_count := gpe_runtime_count a;
     gpe_wake_mask := match action with
                      | ACPI_GPE_ENABLE => {[gpe]} ∪ gpe_wake_mask a
                      | ACPI_GPE_DISABLE => gpe_wake_mask a ∖ {[gpe]}
                      end |}.

(** Is the wake mask bit of [gpe] set? *)
Definition wake_armed (w : world) (gpe : Z) : bool :=
  bool_decide (gpe ∈ gpe_wake_mask (acpi w)).

(** Errno values of the kernel headers. *)
Definition ENOMEM : Z := 12.
Definition EFAULT : Z := 14.
Definition ENODEV : Z := 19.

(** C truth of an [int]. *)
Definition nonzero (status : Z) : bool := negb (status =? 0).

(** ** Programs over the world

    A program either returns a value and a new world, or faults (a NULL
    pointer is dereferenced). *)
Definition M (A : Type) : Type := world -> option (A * world).

Definition ret {A} (a : A) : M A := fun w => Some (a, w).

Definition bind {A B} (m : M A) (k : A -> M B) : M B :=
  fun w => match m w with
           | Some (a, w') => k a w'
           | None => None
           end.

Definition fault {A} : M A := fun _ => None.

Definition modify (f : world -> world) : M unit := fun w => Some (tt, f w).

Declare Scope prog_scope.
Delimit Scope prog_scope with prog.
Notation "x <- c ;; k" := (bind c (fun x => k))
  (at level 100, c at next level, right associativity) : prog_scope.
Notation "c ;; k" := (bind c (fun _ => k))
  (at level 100, right associativity) : prog_scope.
Local Open Scope prog_scope.

(** [p->field] for a pointer that may be NULL. *)
Definition deref {A} (p : option A) : M A :=
  match p with
  | Some a => ret a
  | None => fault
  end.

Section Driver.

(** The status the n-th external call returns: 0 is success ([AE_OK], or 0
    from the platform bus), anything else a failure code.  For
    [platform_device_alloc] a non-zero status stands for a NULL result. *)
Variable oracle : nat -> Z.

(** The identity of the machine the module is loaded on. *)
Variable id : system_identity.

(** Make an external call: it is logged, and the oracle answers. *)
Definition extern (c : call) : M Z :=
  fun w => Some (oracle (length (trace w)), log c w).

(** An external call whose effect takes place only when it succeeds. *)
Definition extern_with (c : call) (effect : world -> world) : M Z :=
  status <- extern c ;;
  (if nonzero status then ret tt else modify effect) ;;
  ret status.

(** *** The ACPI firmware interface

    The five ACPI functions the driver calls are kernel code.  Whether a
    call succeeds is the oracle's business; what a successful call does to
    the firmware state follows the interface of the specification, and a
    call that fails changes nothing. *)

(** Modelled from the spec: [acpi_get_handle], the interface's
    [locate(path)], which answers with a handle or not found.  The driver
    never uses the handle, and the look-up changes nothing. *)
Definition acpi_get_handle (pathname : string) : M Z :=
  extern (AcpiGetHandle pathname).

(** Modelled from the spec: [acpi_mark_gpe_for_wake], the interface's
    [mark_wake_source(event_id)]: on success the GPE is marked as a wake
    source. *)
Definition acpi_mark_gpe_for_wake (gpe : Z) : M Z :=
  extern_with (AcpiMarkGpeForWake gpe)
    (fun w => set_acpi (mark_for_wake gpe (acpi w)) w).

(** Modelled from the spec: [acpi_enable_gpe], the interface's
    [enable_event_source(event_id)]: on success the GPE gains one runtime
    reference (it is enabled while it has any). *)
Definition acpi_enable_gpe (gpe : Z) : M Z :=
  extern_with (AcpiEnableGpe gpe)
    (fun w => set_acpi (add_reference gpe (acpi w)) w).

(** Modelled from the spec: [acpi_disable_gpe], the interface's
    [disable_event_source(event_id)]: on success the GPE loses one runtime
    reference. *)
Definition acpi_disable_gpe (gpe : Z) : M Z :=
  extern_with (AcpiDisableGpe gpe)
    (fun w => set_acpi (remove_reference gpe (acpi w)) w).

(** Modelled from the spec: [acpi_set_gpe_wake_mask], the interface's
    [set_wake_mask(event_id, enabled)]: on success the wake mask bit of the
    GPE is set ([ACPI_GPE_ENABLE]) or cleared ([ACPI_GPE_DISABLE]). *)
Definition acpi_set_gpe_wake_mask (gpe : Z) (action : gpe_action) : M Z :=
  extern_with (AcpiSetGpeWakeMask gpe action)
    (fun w => set_acpi (write_wake_mask gpe action (acpi w)) w).

(** *** Accessors of the device object

    There is one device at most, so a [struct platform_device *] or
    [struct device *] argument is the one in the world; using it when there
    is none is a fault. *)

Definition the_device : M platform_device :=
  fun w => match device (core w) with
           | Some pd => Some (pd, w)
           | None => None
           end.

Definition dev_get_platdata : M (option surface_lid_device) :=
  pd <- the_device ;; ret (platform_data pd).

Definition platform_get_drvdata : M (option surface_lid_device) :=
  pd <- the_device ;; ret (drvdata pd).

Definition dev_get_drvdata : M (option surface_lid_device) :=
  platform_get_drvdata.

Definition platform_set_drvdata (data : option surface_lid_device) : M unit :=
  pd <- the_device ;;
  modify (fun w =>
    set_core (set_device (Some {| platform_data := platform_data pd;
                                  drvdata := data |}) (core w)) w).

(** *** The driver's functions *)

Definition surface_lid_enable_wakeup (dev : option surface_lid_device)
    (enable : bool) : M Z :=
  let action := if enable then ACPI_GPE_ENABLE else ACPI_GPE_DISABLE in
  d <- deref dev ;;
  status <- acpi_set_gpe_wake_mask (gpe_number d) action ;;
  if nonzero status then ret (- EFAULT) else
  ret 0.

Definition surface_gpe_suspend : M Z :=
  ldev <- dev_get_drvdata ;;
  surface_lid_enable_wakeup ldev true.

Definition surface_gpe_resume : M Z :=
  ldev <- dev_get_drvdata ;;
  surface_lid_enable_wakeup ldev false.

Definition surface_gpe_probe : M Z :=
  dev <- dev_get_platdata ;;
  match dev with
  | None => ret (- ENODEV)
  | Some d =>
    status <- acpi_get_handle (acpi_path d) ;;
    if nonzero status then ret (- EFAULT) else
    status <- acpi_mark_gpe_for_wake (gpe_number d) ;;
    if nonzero status then ret (- EFAULT) else
    status <- acpi_enable_gpe (gpe_number d) ;;
    if nonzero status then ret (- EFAULT) else
    status <- surface_lid_enable_wakeup dev false ;;
    if nonzero status then
      (acpi_disable_gpe (gpe_number d) ;;
       ret status)
    else
    platform_set_drvdata dev ;;
    ret 0
  end.

Definition surface_gpe_remove : M Z :=
  dev <- platform_get_drvdata ;;
  surface_lid_enable_wakeup dev false ;;
  d <- deref dev ;;
  acpi_disable_gpe (gpe_number d) ;;
  platform_set_drvdata None ;;
  ret 0.

(** *** The platform bus

    Kernel code again, which the specification leaves outside as the
    driver-registration framework.  The model keeps what the module relies
    on: the effect of each call on the driver core's book-keeping when the
    call succeeds, none when it fails. *)

(** Modelled from the spec: [platform_driver_register] of the
    driver-registration framework; on success the driver is registered. *)
Definition platform_driver_register : M Z :=
  extern_with PlatformDriverRegister
    (fun w => set_core (set_driver_registered true (core w)) w).

(** Modelled from the spec: [platform_driver_unregister] of the
    driver-registration framework.  It cannot fail; in this module the
    device is always gone from the bus by then, so no device is left to
    detach. *)
Definition platform_driver_unregister : M unit :=
  extern PlatformDriverUnregister ;;
  modify (fun w => set_core (set_driver_registered false (core w)) w).

(** Modelled from the spec: [platform_device_alloc] of the
    driver-registration framework.  Returns whether a device object was
    obtained (a non-NULL pointer); a fresh object carries no data. *)
Definition platform_device_alloc : M bool :=
  status <- extern_with PlatformDeviceAlloc
    (fun w => set_core (set_device (Some {| platform_data := None;
                                            drvdata := None |}) (core w)) w) ;;
  ret (negb (nonzero status)).

(** Modelled from the spec: [platform_device_add_data] of the
    driver-registration framework; on success a copy of [data] is the
    device's [platform_data]. *)
Definition platform_device_add_data (data : option surface_lid_device) : M Z :=
  pd <- the_device ;;
  extern_with (PlatformDeviceAddData data)
    (fun w => set_core (set_device (Some {| platform_data := data;
                                            drvdata := drvdata pd |}) (core w)) w).

(** Modelled from the spec: [platform_device_add] of the
    driver-registration framework; on success the device is on the bus. *)
Definition platform_device_add : M Z :=
  extern_with PlatformDeviceAdd
    (fun w => set_core (set_device_added true (core w)) w).

(** Modelled from the spec: [platform_device_put] of the
    driver-registration framework.  It drops the only reference to a device
    that is not on the bus: the object is freed. *)
Definition platform_device_put : M unit :=
  extern PlatformDevicePut ;;
  modify (fun w => set_core (set_device None (core w)) w).

(** Modelled from the spec: [platform_device_unregister] of the
    driver-registration framework.  The driver core runs the driver's
    [remove] only for a device the driver is bound to; then the device
    leaves the bus and is freed. *)
Definition platform_device_unregister : M unit :=
  extern PlatformDeviceUnregister ;;
  bound <- (fun w => Some (device_bound (core w), w)) ;;
  (if bound then (surface_gpe_remove ;; ret tt) else ret tt) ;;
  modify (fun w =>
    set_core (set_device None
               (set_device_added false
                 (set_device_bound false (core w)))) w).

(** *** Module entry points *)

Definition surface_gpe_init : M Z :=
  modify (set_global false) ;;
  match dmi_first_match id dmi_lid_device_table with
  | None => ret 0
  | Some m =>
    let lid := driver_data m in
    status <- platform_driver_register ;;
    if nonzero status then ret status else
    pdev <- platform_device_alloc ;;
    if negb pdev then
      (platform_driver_unregister ;;
       ret (- ENOMEM))
    else
    status <- platform_device_add_data lid ;;
    if nonzero status then
      (platform_device_put ;;
       platform_driver_unregister ;;
       ret status)
    else
    status <- platform_device_add ;;
    if nonzero status then
      (platform_device_put ;;
       platform_driver_unregister ;;
       ret status)
    else
    modify (set_global true) ;;
    ret 0
  end.

Definition surface_gpe_exit : M unit :=
  p <- (fun w => Some (surface_gpe_device w, w)) ;;
  if negb p then ret tt else
  platform_device_unregister ;;
  platform_driver_unregister.

(** *** The host's dispatch

    The driver never calls its own callbacks: the driver core probes a
    device that is on the bus while the driver is registered and binds the
    driver when [probe] returns 0; the power management core calls the
    suspend and resume callbacks of a bound driver only. *)

(** Modelled from the spec: the driver core's probing of a device. *)
Definition driver_probe_device : M unit :=
  fun w =>
    if driver_registered (core w) && device_added (core w)
       && negb (device_bound (core w))
    then (status <- surface_gpe_probe ;;
          modify (fun w' =>
            set_core (set_device_bound (negb (nonzero status)) (core w')) w')) w
    else Some (tt, w).

(** The host lifecycle hooks of the specification: [on_init] is the
    module's init function followed by the probing it triggers (the return
    value is the init function's, as the probe runs asynchronously),
    [on_suspend] and [on_resume] are the power management callbacks as
    dispatched, [on_teardown] is the module's exit function. *)
Definition on_init : M Z :=
  status <- surface_gpe_init ;;
  driver_probe_device ;;
  ret status.

Definition on_suspend : M Z :=
  fun w => if device_bound (core w) then surface_gpe_suspend w else Some (0, w).

Definition on_resume : M Z :=
  fun w => if device_bound (core w) then surface_gpe_resume w else Some (0, w).

Definition on_teardown : M unit := surface_gpe_exit.

End Driver.

(** ** The lifecycle seen from outside *)

(** The states of the wake source.  The driver keeps no state variable of
    its own: the source is registered when the device carries the
    descriptor as driver data, and armed when the wake mask bit of its GPE
    is set. *)
Inductive lifecycle :=
  | Unregistered
  | Registered (armed : bool).

Definition registered_lid (w : world) : option surface_lid_device :=
  match device (core w) with
  | Some pd => drvdata pd
  | None => None
  end.

Definition lifecycle_state (w : world) : lifecycle :=
  match registered_lid w with
  | Some d => Registered (wake_armed w (gpe_number d))
  | None => Unregistered
  end.

(** What [on_init] tells its caller.  The C function returns 0 both when
    it skipped the machine and when it set the device up; the two are told
    apart by the global device pointer. *)
Inductive init_result :=
  | InitOk
  | InitSkip
  | InitErr (code : Z).

Definition init_result_of (status : Z) (w : world) : init_result :=
  if nonzero status then InitErr status
  else if surface_gpe_device w then InitOk else InitSkip.

(** The driver core holds nothing of this module. *)
Definition core_idle (c : driver_core) : Prop :=
  driver_registered c = false /\ device c = None
  /\ device_added c = false /\ device_bound c = false.

(** ** Machines and worlds to run the driver on *)

Definition no_gpe_state : acpi_tables :=
  {| gpe_can_wake := ∅; gpe_runtime_count := ∅; gpe_wake_mask := ∅ |}.

Definition idle_core : driver_core :=
  {| driver_registered := false; device := None;
     device_added := false; device_bound := false |}.

(** The world the module is loaded into. *)
Definition boot_world : world :=
  {| acpi := no_gpe_state; core := idle_core;
     surface_gpe_device := false; trace := [] |}.

(** A world in which the driver is bound to a device that carries [d] as
    driver data, with the wake mask as given. *)
Definition bound_world (d : surface_lid_device) (mask : gset Z) : world :=
  {| acpi := {| gpe_can_wake := {[gpe_number d]};
                gpe_runtime_count := {[gpe_number d := 1%nat]};
                gpe_wake_mask := mask |};
     core := {| driver_registered := true;
                device := Some {| platform_data := Some d; drvdata := Some d |};
                device_added := true; device_bound := true |};
     surface_gpe_device := true; trace := [] |}.

Definition surface_pro_5 : system_identity :=
  {| sys_vendor := Some "Microsoft Corporation";
     product_name := Some "Surface Pro";
     product_sku := Some "Surface_Pro_1796" |}.

(** A made-up identity that satisfies both the "Surface Pro 4" entry (by
    product name) and the "Surface Pro 5" entry (by SKU). *)
Definition pro_4_with_pro_5_sku : system_identity :=
  {| sys_vendor := Some "Microsoft Corporation";
     product_name := Some "Surface Pro 4";
     product_sku := Some "Surface_Pro_1796" |}.

Definition thinkpad : system_identity :=
  {| sys_vendor := Some "LENOVO";
     product_name := Some "20XW";
     product_sku := None |}.

(** Firmware and bus that never fail. *)
Definition always_ok : nat -> Z := fun _ => 0.

(** Every call succeeds but the n-th, which returns [code]. *)
Definition fails_at (n : nat) (code : Z) : nat -> Z :=
  fun i => if Nat.eqb i n then code else 0.

(** The firmware calls of a registration, in the order [surface_gpe_probe]
    makes them. *)
Definition registration_calls (d : surface_lid_device) : list call :=
  [ AcpiGetHandle (acpi_path d);
    AcpiMarkGpeForWake (gpe_number d);
    AcpiEnableGpe (gpe_number d);
    AcpiSetGpeWakeMask (gpe_number d) ACPI_GPE_DISABLE ].

(** The platform bus calls of [surface_gpe_init] when a machine matched. *)
Definition setup_calls (lid : option surface_lid_device) : list call :=
  [ PlatformDriverRegister;
    PlatformDeviceAlloc;
    PlatformDeviceAddData lid;
    PlatformDeviceAdd ].

(** The calls [surface_gpe_remove] makes. *)
Definition cleanup_calls (d : surface_lid_device) : list call :=
  [ AcpiSetGpeWakeMask (gpe_number d) ACPI_GPE_DISABLE;
    AcpiDisableGpe (gpe_number d) ].

(** The calls [surface_gpe_init] has made when its [k]-th platform bus
    call was the first to fail. *)
Definition failed_setup_calls (lid : option surface_lid_device) (k : nat)
    : list call :=
  take (S k) (setup_calls lid)
  ++ match k with
     | 0%nat => []
     | 1%nat => [PlatformDriverUnregister]
     | _ => [PlatformDevicePut; PlatformDriverUnregister]
     end.

(** The oracle answers 0 to the first [k] calls made from [w] on, and
    fails the next one. *)
Definition first_failure (oracle : nat -> Z) (w : world) (k : nat) : Prop :=
  oracle (k + length (trace w))%nat <> 0
  /\ forall i, (i < k)%nat -> oracle (i + length (trace w))%nat = 0.

(** The world a successful [on_init] for descriptor [d] leaves behind
    when started in [w]. *)
Definition registered_world (d : surface_lid_device) (w : world) : world :=
  {| acpi := write_wake_mask (gpe_number d) ACPI_GPE_DISABLE
               (add_reference (gpe_number d)
                  (mark_for_wake (gpe_number d) (acpi w)));
     core := {| driver_registered := true;
                device := Some {| platform_data := Some d; drvdata := Some d |};
                device_added := true; device_bound := true |};
     surface_gpe_device := true;
     trace := trace w ++ setup_calls (Some d) ++ registration_calls d |}.

(** ** More vocabulary for the properties *)

(** The four descriptors of the file. *)
Definition lid_devices : list surface_lid_device :=
  [lid_device_l17; lid_device_l4D; lid_device_l4F; lid_device_l57].

(** The driver core right after a set-up that went through: the driver
    registered, the device on the bus with a copy of [lid] as platform data,
    no driver data yet, not bound. *)
Definition setup_core (lid : option surface_lid_device) : driver_core :=
  {| driver_registered := true;
     device := Some {| platform_data := lid; drvdata := None |};
     device_added := true; device_bound := false |}.

(** The firmware state of GPE [g] is the same in [a'] as in [a]. *)
Definition gpe_untouched (g : Z) (a a' : acpi_tables) : Prop :=
  (g ∈ gpe_wake_mask a' <-> g ∈ gpe_wake_mask a)
  /\ (g ∈ gpe_can_wake a' <-> g ∈ gpe_can_wake a)
  /\ runtime_count a' g = runtime_count a g.

(** [a'] differs from [a] at GPE [gpe] at most. *)
Definition same_off (gpe : Z) (a a' : acpi_tables) : Prop :=
  forall g, g <> gpe -> gpe_untouched g a a'.

(** The power management events of a module's life, and the callbacks
    they are dispatched to. *)
Inductive pm_event := PmSuspend | PmResume.

Definition pm_hook (oracle : nat -> Z) (e : pm_event) : M Z :=
  match e with
  | PmSuspend => on_suspend oracle
  | PmResume => on_resume oracle
  end.

Fixpoint pm_sequence (oracle : nat -> Z) (es : list pm_event) : M unit :=
  match es with
  | [] => ret tt
  | e :: rest => pm_hook oracle e ;; pm_sequence oracle rest
  end.

(** A whole life of the module: load, power management events in any
    order, unload. *)
Definition module_lifetime (oracle : nat -> Z) (id : system_identity)
    (es : list pm_event) : M Z :=
  status <- on_init oracle id ;;
  pm_sequence oracle es ;;
  on_teardown oracle ;;
  ret status.

(** What the host's dispatch relies on along the way: a bound driver has
    its descriptor attached, the descriptor is the one matched for the
    machine, and while the device pointer is NULL the driver core holds
    nothing of the module. *)
Definition dispatch_safe (id : system_identity) (w : world) : Prop :=
  (device_bound (core w) = true -> exists d, registered_lid w = Some d)
  /\ (forall d, registered_lid w = Some d ->
                match_lid id dmi_lid_device_table = Some d)
  /\ (surface_gpe_device w = false -> core_idle (core w)).

(** No GPE but the one matched for the machine differs between [a] and
    [a']. *)
Definition only_matched_gpe (id : system_identity) (a a' : acpi_tables) : Prop :=
  forall g,
    (forall d, match_lid id dmi_lid_device_table = Some d -> g <> gpe_number d) ->
    gpe_untouched g a a'.

(** The firmware call a power management event makes for descriptor [d]. *)
Definition pm_call (d : surface_lid_device) (e : pm_event) : call :=
  AcpiSetGpeWakeMask (gpe_number d)
    match e with
    | PmSuspend => ACPI_GPE_ENABLE
    | PmResume => ACPI_GPE_DISABLE
    end.

(** The world [surface_gpe_init] leaves behind when a machine matched and
    the four platform bus calls succeeded. *)
Definition setup_world (lid : option surface_lid_device) (w : world) : world :=
  {| acpi := acpi w; core := setup_core lid;
     surface_gpe_device := true;
     trace := trace w ++ setup_calls lid |}.

(** Every external call made from log [t] on succeeds. *)
Definition cooperative (oracle : nat -> Z) (t : list call) : Prop :=
  forall i, oracle (i + length t)%nat = 0.

(** Whether the wake source is armed after a sequence of events that all
    succeeded: the last event decides, and without any event nothing
    changes. *)
Definition armed_after (es : list pm_event) (before : bool) : bool :=
  match last es with
  | Some PmSuspend => true
  | Some PmResume => false
  | None => before
  end.

(** The product names and the product SKUs the entries of
    [dmi_lid_device_table] ask for. *)
Definition surface_product_names : list string :=
  [ "Surface Pro 4"; "Surface Pro 6"; "Surface Pro 7";
    "Surface Book"; "Surface Book 2"; "Surface Book 3";
    "Surface Laptop"; "Surface Laptop 2" ].

Definition surface_product_skus : list string :=
  [ "Surface_Pro_1796"; "Surface_Pro_1807"; "Surface_Laptop_3_1867:1868" ].

(** * Properties *)

(** ** The matcher *)

Lemma dmi_first_match_earliest id (table : list dmi_system_id) j ej :
  table !! j = Some ej ->
  dmi_matches id ej = true ->
  exists k ek,
    (k <= j)%nat /\ table !! k = Some ek /\ dmi_matches id ek = true
    /\ (forall n en, (n < k)%nat -> table !! n = Some en ->
                     dmi_matches id en = false)
    /\ dmi_first_match id table = Some ek.
Proof.
  revert j. induction table as [|d rest IH]; intros j Hj Hm.
  - discriminate Hj.
  - destruct (dmi_matches id d) eqn:Hd.
    + exists 0%nat, d. repeat split; try done.
      * lia.
      * intros n en Hn. lia.
      * simpl. by rewrite Hd.
    + destruct j as [|j]; simpl in Hj.
      { injection Hj as ->. congruence. }
      destruct (IH j Hj Hm) as (k & ek & Hle & Hk & Hmk & Hmin & Hres).
      exists (S k), ek. repeat split; try done.
      * lia.
      * intros [|n] en Hn Hen; simpl in Hen.
        -- by injection Hen as <-.
        -- apply (Hmin n); [lia | done].
      * simpl. by rewrite Hd.
Qed.

Lemma dmi_first_match_none id (table : list dmi_system_id) :
  (forall d, In d table -> dmi_matches id d = false) ->
  dmi_first_match id table = None.
Proof.
  induction table as [|d rest IH]; intros H; simpl; [done|].
  rewrite (H d) by (left; reflexivity).
  apply IH. intros d' Hd'. apply H. by right.
Qed.

(** C1. First match wins: when two entries of a table are both satisfied
    by the identity, the matcher returns the earliest satisfied entry of
    the table (which comes no later than the earlier of the two), and the
    descriptor handed on is that entry's. *)
Theorem first_match_wins id (table : list dmi_system_id) i j ei ej :
  (i < j)%nat ->
  table !! i = Some ei -> table !! j = Some ej ->
  dmi_matches id ei = true -> dmi_matches id ej = true ->
  exists k ek,
    (k <= i)%nat /\ table !! k = Some ek /\ dmi_matches id ek = true
    /\ (forall n en, (n < k)%nat -> table !! n = Some en ->
                     dmi_matches id en = false)
    /\ dmi_first_match id table = Some ek
    /\ match_lid id table = driver_data ek.
Proof.
  intros _ Hi _ Hmi _.
  destruct (dmi_first_match_earliest id table i ei Hi Hmi)
    as (k & ek & Hle & Hk & Hmk & Hmin & Hres).
  exists k, ek. repeat split; try done.
  unfold match_lid. by rewrite Hres.
Qed.

Lemma first_match_wins_witness :
  exists k ek,
    (k <= 0)%nat /\ dmi_lid_device_table !! k = Some ek
    /\ dmi_matches pro_4_with_pro_5_sku ek = true
    /\ (forall n en, (n < k)%nat -> dmi_lid_device_table !! n = Some en ->
                     dmi_matches pro_4_with_pro_5_sku en = false)
    /\ dmi_first_match pro_4_with_pro_5_sku dmi_lid_device_table = Some ek
    /\ match_lid pro_4_with_pro_5_sku dmi_lid_device_table = driver_data ek.
Proof.
  apply (first_match_wins pro_4_with_pro_5_sku dmi_lid_device_table 0 1
           (surface_entry "Surface Pro 4" DMI_PRODUCT_NAME "Surface Pro 4"
              lid_device_l17)
           (surface_entry "Surface Pro 5" DMI_PRODUCT_SKU "Surface_Pro_1796"
              lid_device_l4F)).
  - lia.
  - reflexivity.
  - reflexivity.
  - vm_compute; reflexivity.
  - vm_compute; reflexivity.
Defined.

(** ** Running the driver *)

Lemma length_snoc {A} (l : list A) (x : A) : length (l ++ [x]) = S (length l).
Proof. rewrite length_app. simpl. lia. Qed.

Lemma nonzero_eq0 z : z = 0 -> nonzero z = false.
Proof. intros ->. reflexivity. Qed.

Lemma nonzero_neq0 z : z <> 0 -> nonzero z = true.
Proof. intros H. unfold nonzero. apply negb_true_iff, Z.eqb_neq, H. Qed.

Lemma nonzero_true z : nonzero z = true -> z <> 0.
Proof. unfold nonzero. intros H. by apply Z.eqb_neq, negb_true_iff. Qed.

Lemma nonzero_false z : nonzero z = false -> z = 0.
Proof. unfold nonzero. intros H. by apply Z.eqb_eq, negb_false_iff. Qed.

Lemma mask_set (mask : gset Z) gpe : bool_decide (gpe ∈ {[gpe]} ∪ mask) = true.
Proof.
  apply bool_decide_eq_true, elem_of_union_l, elem_of_singleton. reflexivity.
Qed.

Lemma mask_cleared (mask : gset Z) gpe : bool_decide (gpe ∈ mask ∖ {[gpe]}) = false.
Proof.
  apply bool_decide_eq_false.
  rewrite elem_of_difference, elem_of_singleton. tauto.
Qed.

(** Unfold a driver program down to the world transformer it denotes. *)
Ltac unfold_driver :=
  unfold on_init, on_suspend, on_resume, on_teardown, driver_probe_device,
    surface_gpe_init, surface_gpe_exit, surface_gpe_probe, surface_gpe_remove,
    surface_gpe_suspend, surface_gpe_resume, surface_lid_enable_wakeup,
    platform_driver_register, platform_driver_unregister,
    platform_device_alloc, platform_device_add_data, platform_device_add,
    platform_device_put, platform_device_unregister,
    acpi_get_handle, acpi_mark_gpe_for_wake, acpi_enable_gpe,
    acpi_disable_gpe, acpi_set_gpe_wake_mask,
    dev_get_drvdata, platform_get_drvdata, dev_get_platdata,
    platform_set_drvdata, the_device, extern_with, extern, deref, modify,
    fault, bind, ret.

Ltac unfold_driver_in H :=
  unfold on_init, on_suspend, on_resume, on_teardown, driver_probe_device,
    surface_gpe_init, surface_gpe_exit, surface_gpe_probe, surface_gpe_remove,
    surface_gpe_suspend, surface_gpe_resume, surface_lid_enable_wakeup,
    platform_driver_register, platform_driver_unregister,
    platform_device_alloc, platform_device_add_data, platform_device_add,
    platform_device_put, platform_device_unregister,
    acpi_get_handle, acpi_mark_gpe_for_wake, acpi_enable_gpe,
    acpi_disable_gpe, acpi_set_gpe_wake_mask,
    dev_get_drvdata, platform_get_drvdata, dev_get_platdata,
    platform_set_drvdata, the_device, extern_with, extern, deref, modify,
    fault, bind, ret in H.

(** Compute the record updates of a world, without touching its contents. *)
Ltac norm_world :=
  lazy [registered_world set_core set_acpi set_global log
        set_driver_registered set_device set_device_added set_device_bound
        acpi core trace surface_gpe_device
        driver_registered device device_added device_bound].

(** Follow the branch the known oracle answers select. *)
Ltac use_oracle :=
  repeat (simpl; rewrite ?length_snoc;
    match goal with
    | H : ?o ?n = 0 |- context [nonzero (?o ?n)] =>
        rewrite (nonzero_eq0 _ H)
    | H : ?o ?n <> 0 |- context [nonzero (?o ?n)] =>
        rewrite (nonzero_neq0 _ H)
    end);
  simpl; rewrite ?length_snoc.

(** Split a run recorded in [H] on every oracle answer it consults. *)
Ltac case_oracle H :=
  repeat (simpl in H; rewrite ?length_snoc in H;
    match type of H with
    | context [nonzero (?o ?n)] =>
        first
          [ match goal with
            | E : o n = 0 |- _ => rewrite (nonzero_eq0 _ E) in H
            | E : o n <> 0 |- _ => rewrite (nonzero_neq0 _ E) in H
            end
          | let E := fresh "Hstatus" in
            destruct (nonzero (o n)) eqn:E;
            [apply nonzero_true in E | apply nonzero_false in E] ]
    end);
  simpl in H; rewrite ?length_snoc in H.

(** From [first_failure oracle w k], for a given [k]: the answers of the
    calls before the failing one, and the failure itself. *)
Ltac split_failure H k :=
  let Hfail := fresh "Hfail" in
  let Hok := fresh "Hok" in
  destruct H as [Hfail Hok];
  let rec go i :=
    lazymatch i with
    | O => idtac
    | S ?i' => (let Hi := fresh "Hcall" in
                assert (Hi := Hok i' ltac:(lia)); simpl in Hi); go i'
    end in go k; simpl in Hfail; clear Hok.

Ltac idle_world w H :=
  destruct w as [?a [?reg ?dev ?added ?bound] ?glob ?tr];
  destruct H as (Hreg & Hdev & Hadded & Hbound);
  simpl in Hreg, Hdev, Hadded, Hbound; subst.

(** ** No match *)

(** C2. On a machine that satisfies no entry of the table the matcher
    finds nothing, and [on_init], run when the driver core holds nothing of
    the module, returns 0 with the device pointer left NULL (a skip),
    makes no call at all, leaves the firmware as it was and the wake
    source unregistered. *)
Theorem no_match_skips oracle id w :
  core_idle (core w) ->
  (forall d, In d dmi_lid_device_table -> dmi_matches id d = false) ->
  dmi_first_match id dmi_lid_device_table = None
  /\ match_lid id dmi_lid_device_table = None
  /\ exists w',
       on_init oracle id w = Some (0, w')
       /\ init_result_of 0 w' = InitSkip
       /\ trace w' = trace w
       /\ firmware_calls (trace w') = firmware_calls (trace w)
       /\ acpi w' = acpi w
       /\ core w' = core w
       /\ lifecycle_state w' = Unregistered.
Proof.
  intros Hidle Hnone.
  pose proof (dmi_first_match_none id _ Hnone) as Hm.
  split; [done|]. split; [unfold match_lid; by rewrite Hm|].
  exists (set_global false w).
  idle_world w Hidle.
  unfold_driver. rewrite Hm. simpl.
  repeat split.
Qed.

Lemma no_match_skips_witness :
  dmi_first_match thinkpad dmi_lid_device_table = None
  /\ match_lid thinkpad dmi_lid_device_table = None
  /\ exists w',
       on_init always_ok thinkpad boot_world = Some (0, w')
       /\ init_result_of 0 w' = InitSkip
       /\ trace w' = trace boot_world
       /\ firmware_calls (trace w') = firmware_calls (trace boot_world)
       /\ acpi w' = acpi boot_world
       /\ core w' = core boot_world
       /\ lifecycle_state w' = Unregistered.
Proof.
  apply (no_match_skips always_ok thinkpad boot_world).
  - repeat split.
  - intros d Hd. simpl in Hd.
    repeat (destruct Hd as [Hd|Hd]; [subst d; vm_compute; reflexivity|]).
    destruct Hd.
Defined.

(** ** Registration *)

(** [surface_gpe_probe] when every firmware call succeeds. *)
Lemma surface_gpe_probe_ok oracle w pd d :
  device (core w) = Some pd -> platform_data pd = Some d ->
  (forall i, (i < 4)%nat -> oracle (i + length (trace w))%nat = 0) ->
  exists w',
    surface_gpe_probe oracle w = Some (0, w')
    /\ trace w' = trace w ++ registration_calls d
    /\ registered_lid w' = Some d
    /\ lifecycle_state w' = Registered false
    /\ gpe_number d ∈ gpe_can_wake (acpi w')
    /\ runtime_count (acpi w') (gpe_number d)
       = S (runtime_count (acpi w) (gpe_number d)).
Proof.
  intros Hdev Hpd Hok.
  assert (H0 := Hok 0%nat ltac:(lia)). assert (H1 := Hok 1%nat ltac:(lia)).
  assert (H2 := Hok 2%nat ltac:(lia)). assert (H3 := Hok 3%nat ltac:(lia)).
  simpl in H0, H1, H2, H3.
  unfold_driver. rewrite Hdev. simpl. rewrite Hpd. use_oracle. rewrite Hdev.
  eexists; split; [reflexivity|]. simpl.
  repeat split.
  - by rewrite <- !app_assoc.
  - unfold lifecycle_state, registered_lid. simpl.
    unfold wake_armed. simpl. by rewrite mask_cleared.
  - apply elem_of_union_l, elem_of_singleton. reflexivity.
  - unfold runtime_count. simpl. by rewrite lookup_insert_eq.
Qed.

(** [surface_gpe_probe] returns 0 only when all four firmware calls
    succeeded. *)
Lemma surface_gpe_probe_zero oracle w pd d w' :
  device (core w) = Some pd -> platform_data pd = Some d ->
  surface_gpe_probe oracle w = Some (0, w') ->
  forall i, (i < 4)%nat -> oracle (i + length (trace w))%nat = 0.
Proof.
  intros Hdev Hpd Hrun.
  unfold_driver_in Hrun. rewrite Hdev in Hrun. simpl in Hrun.
  rewrite Hpd in Hrun. case_oracle Hrun; try discriminate Hrun.
  intros [|[|[|[|i]]]] Hi; simpl; done || lia.
Qed.

(** What [on_init] can lead to when the driver core held nothing of the
    module: it always returns, and either the driver is bound, after a
    machine of the table with a descriptor was found, 0 is returned and
    the world is exactly [registered_world]; or the driver is not bound and
    no descriptor is attached to any device. *)
Lemma on_init_outcome oracle id w :
  core_idle (core w) ->
  exists status w',
    on_init oracle id w = Some (status, w')
    /\ ((device_bound (core w') = true
         /\ exists m d,
              dmi_first_match id dmi_lid_device_table = Some m
              /\ driver_data m = Some d
              /\ status = 0
              /\ w' = registered_world d w)
        \/ (device_bound (core w') = false /\ registered_lid w' = None)).
Proof.
  intros Hidle.
  idle_world w Hidle.
  destruct (on_init oracle id _) as [[status w']|] eqn:Hrun.
  - exists status, w'. split; [reflexivity|].
    unfold_driver_in Hrun.
    destruct (dmi_first_match id dmi_lid_device_table) as [m|];
      [|injection Hrun as <- <-; right; split; reflexivity].
    destruct (driver_data m) as [d|] eqn:Hd.
    2: { case_oracle Hrun; injection Hrun as <- <-; right; split; reflexivity. }
    case_oracle Hrun; injection Hrun as <- <-;
      try (right; split; reflexivity).
    left. split; [reflexivity|]. exists m, d. repeat split; [exact Hd|].
    norm_world. by rewrite <- !app_assoc.
  - exfalso. unfold_driver_in Hrun.
    destruct (dmi_first_match id dmi_lid_device_table) as [m|];
      [|discriminate Hrun].
    destruct (driver_data m) as [d|]; case_oracle Hrun; discriminate Hrun.
Qed.

(** An [on_init] that ends with the driver bound found a machine of the
    table with a descriptor, returned 0 and left exactly
    [registered_world]. *)
Lemma on_init_bound oracle id w status w' :
  core_idle (core w) ->
  on_init oracle id w = Some (status, w') ->
  device_bound (core w') = true ->
  exists m d,
    dmi_first_match id dmi_lid_device_table = Some m
    /\ driver_data m = Some d
    /\ status = 0
    /\ w' = registered_world d w.
Proof.
  intros Hidle Hrun Hend.
  destruct (on_init_outcome oracle id w Hidle)
    as (status' & w'' & Hrun' & [[_ H]|[Hb _]]);
    rewrite Hrun in Hrun'; injection Hrun' as <- <-.
  - exact H.
  - congruence.
Qed.

Lemma registered_world_disarmed d w :
  wake_armed (registered_world d w) (gpe_number d) = false.
Proof. unfold wake_armed. simpl. apply mask_cleared. Qed.

(** C3. A successful [on_init] (a machine of the table, the driver bound
    at the end) makes, after the four platform bus calls that set the
    device up, exactly the four firmware calls of a registration and in
    this order: look the object up by its path, mark the GPE for wake,
    enable the GPE, set its wake mask to disabled.  It returns 0 with the
    device pointer set, and the wake source ends registered and disarmed. *)
Theorem init_registers_in_order oracle id w m d status w' :
  core_idle (core w) ->
  dmi_first_match id dmi_lid_device_table = Some m ->
  driver_data m = Some d ->
  on_init oracle id w = Some (status, w') ->
  device_bound (core w') = true ->
  status = 0
  /\ init_result_of status w' = InitOk
  /\ trace w' = trace w ++ setup_calls (Some d) ++ registration_calls d
  /\ firmware_calls (trace w')
     = firmware_calls (trace w) ++
       [ AcpiGetHandle (acpi_path d);
         AcpiMarkGpeForWake (gpe_number d);
         AcpiEnableGpe (gpe_number d);
         AcpiSetGpeWakeMask (gpe_number d) ACPI_GPE_DISABLE ]
  /\ registered_lid w' = Some d
  /\ lifecycle_state w' = Registered false.
Proof.
  intros Hidle Hm Hd Hrun Hend.
  destruct (on_init_bound _ _ _ _ _ Hidle Hrun Hend)
    as (m' & d' & Hm' & Hd' & -> & ->).
  assert (d' = d) as -> by congruence.
  repeat split.
  - unfold firmware_calls. simpl. rewrite List.filter_app. reflexivity.
  - unfold lifecycle_state. simpl. by rewrite registered_world_disarmed.
Qed.

Lemma init_registers_in_order_witness :
  exists w',
    on_init always_ok surface_pro_5 boot_world = Some (0, w')
    /\ init_result_of 0 w' = InitOk
    /\ trace w' = setup_calls (Some lid_device_l4F)
                  ++ registration_calls lid_device_l4F
    /\ firmware_calls (trace w')
       = [ AcpiGetHandle "\_SB.LID0"; AcpiMarkGpeForWake 0x4F;
           AcpiEnableGpe 0x4F; AcpiSetGpeWakeMask 0x4F ACPI_GPE_DISABLE ]
    /\ lifecycle_state w' = Registered false.
Proof.
  destruct (on_init always_ok surface_pro_5 boot_world) as [[s w']|] eqn:Hrun;
    [|vm_compute in Hrun; discriminate Hrun].
  assert (Hbound : device_bound (core w') = true).
  { vm_compute in Hrun. injection Hrun as _ <-. reflexivity. }
  destruct (init_registers_in_order always_ok surface_pro_5 boot_world
              (surface_entry "Surface Pro 5" DMI_PRODUCT_SKU "Surface_Pro_1796"
                 lid_device_l4F)
              lid_device_l4F s w')
    as (-> & Hres & Htrace & Hfw & _ & Hstate).
  - repeat split.
  - vm_compute; reflexivity.
  - reflexivity.
  - exact Hrun.
  - exact Hbound.
  - exists w'. repeat split; assumption.
Defined.

(** ** Failed registration *)

(** C4. Whichever of the four firmware calls of a registration is the
    first to fail (look-up, wake marking, enabling, initial mask set),
    [surface_gpe_probe] stops there and returns [-EFAULT]; nothing is
    attached to the device, so the wake source stays unregistered.  The
    only thing the probe can have switched on, the GPE, is switched off
    again: [acpi_disable_gpe] is called exactly when [acpi_enable_gpe] had
    succeeded, and the GPE's reference count is back where it was, unless
    that disable call itself fails, which the probe does not act on.  The
    wake mask is as before; the wake marking, for which the interface has
    no undo, stays. *)
Theorem probe_failure_aborts oracle w pd d k :
  device (core w) = Some pd ->
  platform_data pd = Some d ->
  drvdata pd = None ->
  (k < 4)%nat ->
  first_failure oracle w k ->
  exists w',
    surface_gpe_probe oracle w = Some (- EFAULT, w')
    /\ core w' = core w
    /\ lifecycle_state w' = Unregistered
    /\ trace w' = trace w ++ take (S k) (registration_calls d)
                   ++ (if (k =? 3)%nat then [AcpiDisableGpe (gpe_number d)]
                       else [])
    /\ gpe_wake_mask (acpi w') = gpe_wake_mask (acpi w)
    /\ runtime_count (acpi w') (gpe_number d)
       = (if (k =? 3)%nat && nonzero (oracle (4 + length (trace w))%nat)
          then S (runtime_count (acpi w) (gpe_number d))
          else runtime_count (acpi w) (gpe_number d))
    /\ gpe_can_wake (acpi w')
       = (if (k <=? 1)%nat then gpe_can_wake (acpi w)
          else {[gpe_number d]} ∪ gpe_can_wake (acpi w)).
Proof.
  intros Hdev Hpd Hdrv Hk Hff.
  assert (Hstate : forall w', core w' = core w ->
                              lifecycle_state w' = Unregistered).
  { intros w' Hc. unfold lifecycle_state, registered_lid.
    by rewrite Hc, Hdev, Hdrv. }
  destruct k as [|[|[|[|k]]]]; try lia.
  - split_failure Hff 0%nat.
    unfold_driver. rewrite Hdev. simpl. rewrite Hpd. use_oracle.
    eexists; split; [reflexivity|]. repeat split; auto.
  - split_failure Hff 1%nat.
    unfold_driver. rewrite Hdev. simpl. rewrite Hpd. use_oracle.
    eexists; split; [reflexivity|]. repeat split; auto.
    simpl. by rewrite <- !app_assoc.
  - split_failure Hff 2%nat.
    unfold_driver. rewrite Hdev. simpl. rewrite Hpd. use_oracle.
    eexists; split; [reflexivity|]. repeat split; auto.
    simpl. by rewrite <- !app_assoc.
  - split_failure Hff 3%nat.
    unfold_driver. rewrite Hdev. simpl. rewrite Hpd. use_oracle.
    destruct (nonzero (oracle (S (S (S (S (length (trace w)))))))) eqn:Hdis;
      simpl.
    all: eexists; split; [reflexivity|]; repeat split; auto.
    all: simpl; rewrite <- ?app_assoc; try done.
    all: unfold runtime_count; simpl.
    all: rewrite !lookup_insert_eq; simpl.
    all: unfold runtime_count; simpl; rewrite ?lookup_insert_eq; done.
Qed.

Lemma probe_failure_aborts_witness :
  exists w',
    surface_gpe_probe (fails_at 3 5)
      (set_core {| driver_registered := true;
                   device := Some {| platform_data := Some lid_device_l4F;
                                     drvdata := None |};
                   device_added := true; device_bound := false |} boot_world)
    = Some (- EFAULT, w')
    /\ lifecycle_state w' = Unregistered
    /\ trace w' = registration_calls lid_device_l4F ++ [AcpiDisableGpe 0x4F]
    /\ runtime_count (acpi w') 0x4F = 0%nat.
Proof.
  destruct (probe_failure_aborts (fails_at 3 5)
              (set_core {| driver_registered := true;
                           device := Some {| platform_data := Some lid_device_l4F;
                                             drvdata := None |};
                           device_added := true; device_bound := false |}
                 boot_world)
              {| platform_data := Some lid_device_l4F; drvdata := None |}
              lid_device_l4F 3)
    as (w' & Hrun & _ & Hstate & Htrace & _ & Hcount & _).
  - reflexivity.
  - reflexivity.
  - reflexivity.
  - lia.
  - split.
    + vm_compute. discriminate.
    + intros [|[|[|i]]] Hi; solve [reflexivity | lia].
  - exists w'. repeat split; assumption.
Defined.

(** ** Suspend and resume *)

(** The two callbacks on a world whose device carries a descriptor: one
    [acpi_set_gpe_wake_mask] call each; the mask changes only when the
    call succeeds, and a failure is reported as [-EFAULT]. *)
Lemma surface_lid_enable_wakeup_run oracle w d enable :
  surface_lid_enable_wakeup oracle (Some d) enable w
  = let action := if enable then ACPI_GPE_ENABLE else ACPI_GPE_DISABLE in
    let w1 := log (AcpiSetGpeWakeMask (gpe_number d) action) w in
    if nonzero (oracle (length (trace w)))
    then Some (- EFAULT, w1)
    else Some (0, set_acpi (write_wake_mask (gpe_number d) action (acpi w1)) w1).
Proof.
  unfold_driver. simpl.
  destruct (nonzero (oracle (length (trace w)))) eqn:E; simpl; rewrite E;
    reflexivity.
Qed.

Lemma surface_gpe_suspend_run oracle w d :
  registered_lid w = Some d ->
  surface_gpe_suspend oracle w = surface_lid_enable_wakeup oracle (Some d) true w.
Proof.
  unfold registered_lid, surface_gpe_suspend, dev_get_drvdata,
    platform_get_drvdata, the_device, bind, ret.
  destruct (device (core w)) as [pd|]; [|discriminate]. by intros ->.
Qed.

Lemma surface_gpe_resume_run oracle w d :
  registered_lid w = Some d ->
  surface_gpe_resume oracle w = surface_lid_enable_wakeup oracle (Some d) false w.
Proof.
  unfold registered_lid, surface_gpe_resume, dev_get_drvdata,
    platform_get_drvdata, the_device, bind, ret.
  destruct (device (core w)) as [pd|]; [|discriminate]. by intros ->.
Qed.

Lemma on_suspend_run oracle w d :
  device_bound (core w) = true ->
  registered_lid w = Some d ->
  on_suspend oracle w
  = let w1 := log (AcpiSetGpeWakeMask (gpe_number d) ACPI_GPE_ENABLE) w in
    if nonzero (oracle (length (trace w)))
    then Some (- EFAULT, w1)
    else Some (0, set_acpi (write_wake_mask (gpe_number d) ACPI_GPE_ENABLE
                              (acpi w)) w1).
Proof.
  intros Hb Hd. unfold on_suspend. rewrite Hb.
  by rewrite (surface_gpe_suspend_run _ _ d Hd), surface_lid_enable_wakeup_run.
Qed.

Lemma on_resume_run oracle w d :
  device_bound (core w) = true ->
  registered_lid w = Some d ->
  on_resume oracle w
  = let w1 := log (AcpiSetGpeWakeMask (gpe_number d) ACPI_GPE_DISABLE) w in
    if nonzero (oracle (length (trace w)))
    then Some (- EFAULT, w1)
    else Some (0, set_acpi (write_wake_mask (gpe_number d) ACPI_GPE_DISABLE
                              (acpi w)) w1).
Proof.
  intros Hb Hd. unfold on_resume. rewrite Hb.
  by rewrite (surface_gpe_resume_run _ _ d Hd), surface_lid_enable_wakeup_run.
Qed.

Lemma mask_set_twice (mask : gset Z) gpe :
  {[gpe]} ∪ ({[gpe]} ∪ mask) = {[gpe]} ∪ mask.
Proof.
  apply set_eq. intros x. rewrite !elem_of_union, !elem_of_singleton. tauto.
Qed.

(** C5, as the code has it.  After an [on_init] that registered the wake
    source, [on_suspend] followed by [on_resume] both return, and the wake
    mask, indeed the whole firmware state, is again what it was right
    after [on_init], disarmed, whenever [on_resume] reports success (and
    also when [on_suspend] had failed).  The one way to end armed is an
    arming that succeeded followed by a disarming call the firmware
    refused. *)
Theorem suspend_resume_round_trip oracle id w0 s0 w1 :
  core_idle (core w0) ->
  on_init oracle id w0 = Some (s0, w1) ->
  device_bound (core w1) = true ->
  exists d s1 w2 s2 w3,
    registered_lid w1 = Some d
    /\ wake_armed w1 (gpe_number d) = false
    /\ on_suspend oracle w1 = Some (s1, w2)
    /\ on_resume oracle w2 = Some (s2, w3)
    /\ wake_armed w3 (gpe_number d) = negb (nonzero s1) && nonzero s2
    /\ (s1 <> 0 \/ s2 = 0 ->
        wake_armed w3 (gpe_number d) = wake_armed w1 (gpe_number d)
        /\ lifecycle_state w3 = Registered false
        /\ lifecycle_state w3 = lifecycle_state w1
        /\ acpi w3 = acpi w1
        /\ core w3 = core w1).
Proof.
  intros Hidle Hrun Hend.
  destruct (on_init_bound _ _ _ _ _ Hidle Hrun Hend)
    as (m & d & _ & _ & -> & ->).
  exists d.
  assert (Hb : device_bound (core (registered_world d w0)) = true)
    by reflexivity.
  assert (Hd : registered_lid (registered_world d w0) = Some d)
    by reflexivity.
  pose proof (registered_world_disarmed d w0) as Hm.
  revert Hb Hd Hm. generalize (registered_world d w0). clear.
  intros w Hb Hd Hm.
  destruct w as [[cw rc mask] [reg [[pdata dd]|] added bound] g t];
    try discriminate Hd.
  unfold wake_armed in Hm. cbn [acpi gpe_wake_mask] in Hm.
  apply bool_decide_eq_false in Hm.
  unfold registered_lid in Hd. cbn in Hd, Hb. subst dd bound.
  destruct (nonzero (oracle (length t))) eqn:Hs;
    destruct (nonzero (oracle (S (length t)))) eqn:Hr.
  all: do 4 eexists.
  all: split; [reflexivity|].
  all: split; [unfold wake_armed; by apply bool_decide_eq_false|].
  all: split;
    [rewrite (on_suspend_run _ _ d) by reflexivity;
     cbv zeta; norm_world; rewrite Hs; reflexivity|].
  all: split;
    [rewrite (on_resume_run _ _ d) by reflexivity;
     cbv zeta; norm_world; rewrite length_snoc, Hr; reflexivity|].
  all: unfold lifecycle_state, wake_armed, registered_lid; norm_world.
  all: cbn [write_wake_mask gpe_wake_mask].
  all: rewrite ?mask_cleared, ?mask_set.
  all: split;
    [first [reflexivity | by apply bool_decide_eq_false]|].
  all: intros Hzero.
  all: try (destruct Hzero as [Hzero|Hzero];
            [by destruct Hzero | discriminate Hzero]).
  all: repeat split.
  all: cbn [drvdata].
  all: rewrite ?mask_cleared, ?(bool_decide_eq_false_2 _ Hm);
    try reflexivity.
  all: unfold write_wake_mask; cbn [gpe_can_wake gpe_runtime_count gpe_wake_mask].
  all: f_equal.
  all: apply set_eq; intros x.
  all: rewrite elem_of_difference, ?elem_of_union, !elem_of_singleton.
  all: split; [tauto|intros Hx; split; [tauto|congruence]].
Qed.

Lemma suspend_resume_round_trip_witness :
  exists w1 d s1 w2 s2 w3,
    on_init always_ok surface_pro_5 boot_world = Some (0, w1)
    /\ registered_lid w1 = Some d
    /\ on_suspend always_ok w1 = Some (s1, w2)
    /\ on_resume always_ok w2 = Some (s2, w3)
    /\ wake_armed w3 (gpe_number d) = negb (nonzero s1) && nonzero s2.
Proof.
  destruct (on_init always_ok surface_pro_5 boot_world) as [[s0 w1]|] eqn:Hrun;
    [|vm_compute in Hrun; discriminate Hrun].
  assert (Hend : device_bound (core w1) = true /\ s0 = 0).
  { vm_compute in Hrun. injection Hrun as <- <-. split; reflexivity. }
  destruct Hend as [Hend ->].
  destruct (suspend_resume_round_trip always_ok surface_pro_5 boot_world 0 w1)
    as (d & s1 & w2 & s2 & w3 & Hd & _ & Hs & Hr & Hmask & _).
  - repeat split.
  - exact Hrun.
  - exact Hend.
  - exists w1, d, s1, w2, s2, w3. repeat split; assumption.
Defined.

(** C5 read for every answer of the firmware does not hold: on a Surface
    Pro 5, when the firmware accepts the arming on suspend and then refuses
    the disarming on resume, the round trip ends with the wake mask armed,
    not in the state [on_init] left. *)
Lemma round_trip_failed_disarm_stays_armed :
  ~ (forall oracle id w0 s0 w1,
       core_idle (core w0) ->
       on_init oracle id w0 = Some (s0, w1) ->
       device_bound (core w1) = true ->
       exists d s1 w2 s2 w3,
         registered_lid w1 = Some d
         /\ on_suspend oracle w1 = Some (s1, w2)
         /\ on_resume oracle w2 = Some (s2, w3)
         /\ wake_armed w3 (gpe_number d) = wake_armed w1 (gpe_number d)
         /\ wake_armed w3 (gpe_number d) = false).
Proof.
  intros H.
  destruct (on_init (fails_at 9 5) surface_pro_5 boot_world)
    as [[s0 w1]|] eqn:H0; [|vm_compute in H0; discriminate H0].
  assert (Hb : device_bound (core w1) = true).
  { vm_compute in H0. by injection H0 as _ <-. }
  assert (Hidle : core_idle (core boot_world)) by (repeat split).
  destruct (H _ _ _ _ _ Hidle H0 Hb)
    as (d & s1 & w2 & s2 & w3 & Hd & H1 & H2 & _ & Hdisarmed).
  vm_compute in H0. injection H0 as <- <-.
  vm_compute in Hd. injection Hd as <-.
  vm_compute in H1. injection H1 as <- <-.
  vm_compute in H2. injection H2 as <- <-.
  vm_compute in Hdisarmed. discriminate Hdisarmed.
Qed.

(** C6. Suspending twice in a row.  For a registered wake source both
    [on_suspend] calls return.  Once the first has armed the source, the
    second leaves the world exactly as the first did (registered and
    armed, firmware registers, reference counts and driver core untouched)
    except that one more [acpi_set_gpe_wake_mask(ENABLE)] call is on the
    log, whether that second call succeeds or not.  The same holds when
    the firmware refuses both calls; the reference counts are never
    touched. *)
Theorem suspend_twice_idempotent oracle w d :
  device_bound (core w) = true ->
  registered_lid w = Some d ->
  exists s1 w1 s2 w2,
    on_suspend oracle w = Some (s1, w1)
    /\ on_suspend oracle w1 = Some (s2, w2)
    /\ (s1 = 0 ->
        lifecycle_state w1 = Registered true
        /\ lifecycle_state w2 = Registered true
        /\ w2 = log (AcpiSetGpeWakeMask (gpe_number d) ACPI_GPE_ENABLE) w1)
    /\ (s1 <> 0 -> s2 <> 0 ->
        w2 = log (AcpiSetGpeWakeMask (gpe_number d) ACPI_GPE_ENABLE) w1)
    /\ gpe_runtime_count (acpi w2) = gpe_runtime_count (acpi w)
    /\ trace w2 = trace w ++ [AcpiSetGpeWakeMask (gpe_number d) ACPI_GPE_ENABLE;
                              AcpiSetGpeWakeMask (gpe_number d) ACPI_GPE_ENABLE].
Proof.
  intros Hb Hd.
  destruct w as [[cw rc mask] [reg [[pdata dd]|] added bound] g t];
    try discriminate Hd.
  unfold registered_lid in Hd. cbn in Hd, Hb. subst dd bound.
  destruct (nonzero (oracle (length t))) eqn:Hs1;
    destruct (nonzero (oracle (S (length t)))) eqn:Hs2.
  all: do 4 eexists.
  all: split;
    [rewrite (on_suspend_run _ _ d) by reflexivity;
     cbv zeta; norm_world; rewrite Hs1; reflexivity|].
  all: split;
    [rewrite (on_suspend_run _ _ d) by reflexivity;
     cbv zeta; norm_world; rewrite length_snoc, Hs2; reflexivity|].
  all: unfold lifecycle_state, wake_armed, registered_lid; norm_world.
  all: unfold write_wake_mask.
  all: cbn [drvdata gpe_can_wake gpe_wake_mask gpe_runtime_count].
  all: rewrite ?mask_set_twice, ?mask_set.
  all: split; [intros Hzero; try discriminate Hzero; repeat split|].
  all: split; [intros Hne1 Hne2; try (by destruct Hne1); try (by destruct Hne2);
               reflexivity|].
  all: split; [reflexivity|by rewrite <- app_assoc].
Qed.

Lemma suspend_twice_idempotent_witness :
  exists w1 s2 w2,
    on_suspend always_ok (bound_world lid_device_l4F ∅) = Some (0, w1)
    /\ on_suspend always_ok w1 = Some (s2, w2)
    /\ lifecycle_state w2 = Registered true
    /\ w2 = log (AcpiSetGpeWakeMask 0x4F ACPI_GPE_ENABLE) w1.
Proof.
  destruct (suspend_twice_idempotent always_ok (bound_world lid_device_l4F ∅)
              lid_device_l4F)
    as (s1 & w1 & s2 & w2 & Hrun1 & Hrun2 & Harmed & _).
  - reflexivity.
  - reflexivity.
  - assert (s1 = 0) as ->.
    { rewrite (on_suspend_run _ _ lid_device_l4F) in Hrun1 by reflexivity.
      by injection Hrun1 as <- _. }
    destruct (Harmed eq_refl) as (_ & Hstate & Heq).
    exists w1, s2, w2. repeat split; assumption.
Defined.

(** ** Teardown *)

(** What [surface_gpe_remove] does to a world whose device carries [d]:
    both firmware calls are made whatever the first one answers, and the
    driver data is cleared. *)
Lemma surface_gpe_remove_run oracle w pd d :
  device (core w) = Some pd ->
  drvdata pd = Some d ->
  exists a',
    surface_gpe_remove oracle w
    = Some (0, {| acpi := a';
                  core := set_device
                            (Some {| platform_data := platform_data pd;
                                     drvdata := None |}) (core w);
                  surface_gpe_device := surface_gpe_device w;
                  trace := trace w ++ cleanup_calls d |})
    /\ gpe_can_wake a' = gpe_can_wake (acpi w)
    /\ gpe_wake_mask a'
       = (if nonzero (oracle (length (trace w)))
          then gpe_wake_mask (acpi w)
          else gpe_wake_mask (acpi w) ∖ {[gpe_number d]})
    /\ runtime_count a' (gpe_number d)
       = (if nonzero (oracle (1 + length (trace w))%nat)
          then runtime_count (acpi w) (gpe_number d)
          else Nat.pred (runtime_count (acpi w) (gpe_number d))).
Proof.
  intros Hdev Hdrv. cbn [Nat.add].
  destruct (nonzero (oracle (length (trace w)))) eqn:E0;
    [apply nonzero_true in E0 | apply nonzero_false in E0];
    (destruct (nonzero (oracle (S (length (trace w))))) eqn:E1;
     [apply nonzero_true in E1 | apply nonzero_false in E1]).
  all: unfold_driver; rewrite Hdev; simpl; rewrite Hdrv; use_oracle.
  all: rewrite Hdev.
  all: eexists; split;
    [unfold set_core, set_acpi, log; simpl; rewrite <- ?app_assoc; reflexivity|].
  all: simpl; repeat split; try reflexivity.
  all: unfold runtime_count; simpl; by rewrite lookup_insert_eq.
Qed.

Lemma and_nonzero_mask (mask : gset Z) gpe status :
  bool_decide (gpe ∈ (if nonzero status then mask else mask ∖ {[gpe]}))
  = bool_decide (gpe ∈ mask) && nonzero status.
Proof.
  destruct (nonzero status).
  - by rewrite andb_true_r.
  - by rewrite mask_cleared, andb_false_r.
Qed.

(** C7, as the code has it.  For a registered wake source, armed or not,
    teardown makes every cleanup step whatever the earlier ones answered:
    [surface_gpe_remove] calls [acpi_set_gpe_wake_mask(DISABLE)], then
    [acpi_disable_gpe], then clears the driver data and returns 0, and
    [on_teardown] around it takes the device and the driver off the bus.
    The wake source always ends unregistered.  The firmware side follows
    the answers: the wake mask is disarmed unless the source was armed and
    the mask call failed, and the GPE loses its reference unless the
    disable call failed. *)
Theorem teardown_attempts_every_cleanup oracle w pd d :
  device (core w) = Some pd ->
  drvdata pd = Some d ->
  (exists w',
     surface_gpe_remove oracle w = Some (0, w')
     /\ trace w' = trace w ++ cleanup_calls d
     /\ registered_lid w' = None
     /\ lifecycle_state w' = Unregistered
     /\ wake_armed w' (gpe_number d)
        = wake_armed w (gpe_number d) && nonzero (oracle (length (trace w)))
     /\ runtime_count (acpi w') (gpe_number d)
        = (if nonzero (oracle (1 + length (trace w))%nat)
           then runtime_count (acpi w) (gpe_number d)
           else Nat.pred (runtime_count (acpi w) (gpe_number d))))
  /\ (device_bound (core w) = true ->
      surface_gpe_device w = true ->
      exists w',
        on_teardown oracle w = Some (tt, w')
        /\ trace w' = trace w ++ [PlatformDeviceUnregister] ++ cleanup_calls d
                       ++ [PlatformDriverUnregister]
        /\ core_idle (core w')
        /\ lifecycle_state w' = Unregistered
        /\ wake_armed w' (gpe_number d)
           = wake_armed w (gpe_number d)
             && nonzero (oracle (1 + length (trace w))%nat)
        /\ runtime_count (acpi w') (gpe_number d)
           = (if nonzero (oracle (2 + length (trace w))%nat)
              then runtime_count (acpi w) (gpe_number d)
              else Nat.pred (runtime_count (acpi w) (gpe_number d)))).
Proof.
  intros Hdev Hdrv. split.
  - destruct (surface_gpe_remove_run oracle w pd d Hdev Hdrv)
      as (a' & Hrun & _ & Hmask & Hcount).
    eexists. split; [exact Hrun|]. simpl. repeat split; try done.
    unfold wake_armed. simpl. rewrite Hmask. apply and_nonzero_mask.
  - intros Hb Hglob.
    destruct (surface_gpe_remove_run oracle (log PlatformDeviceUnregister w)
                pd d Hdev Hdrv) as (a' & Hrun & _ & Hmask & Hcount).
    simpl in Hmask, Hcount. rewrite length_snoc in Hmask, Hcount.
    unfold on_teardown, surface_gpe_exit, platform_device_unregister,
      platform_driver_unregister, extern, modify, bind, ret.
    rewrite Hglob. simpl. rewrite Hb, Hrun. simpl.
    eexists. split; [reflexivity|]. simpl. repeat split; try done.
    + by rewrite <- !app_assoc.
    + unfold wake_armed. simpl. rewrite Hmask. apply and_nonzero_mask.
Qed.

Lemma teardown_attempts_every_cleanup_witness :
  exists w',
    surface_gpe_remove (fails_at 0 5) (bound_world lid_device_l4F {[0x4F]})
    = Some (0, w')
    /\ trace w' = cleanup_calls lid_device_l4F
    /\ lifecycle_state w' = Unregistered
    /\ wake_armed w' 0x4F
       = wake_armed (bound_world lid_device_l4F {[0x4F]}) 0x4F
         && nonzero (fails_at 0 5 0).
Proof.
  destruct (teardown_attempts_every_cleanup (fails_at 0 5)
              (bound_world lid_device_l4F {[0x4F]})
              {| platform_data := Some lid_device_l4F;
                 drvdata := Some lid_device_l4F |}
              lid_device_l4F)
    as [(w' & Hrun & Htrace & _ & Hstate & Hmask & _) _].
  - reflexivity.
  - reflexivity.
  - exists w'. repeat split; assumption.
Defined.

(** C7 read for every answer of the firmware does not hold: with the wake
    source armed and the firmware refusing the mask call, teardown still
    ends unregistered but the wake mask is left armed, so the default is
    not restored. *)
Lemma teardown_failed_disarm_stays_armed :
  ~ (forall oracle w pd d,
       device (core w) = Some pd ->
       drvdata pd = Some d ->
       exists w',
         surface_gpe_remove oracle w = Some (0, w')
         /\ lifecycle_state w' = Unregistered
         /\ wake_armed w' (gpe_number d) = false).
Proof.
  intros H.
  destruct (H (fails_at 0 5) (bound_world lid_device_l4F {[0x4F]})
              {| platform_data := Some lid_device_l4F;
                 drvdata := Some lid_device_l4F |}
              lid_device_l4F eq_refl eq_refl)
    as (w' & Hrun & _ & Harmed).
  vm_compute in Hrun. injection Hrun as <-.
  vm_compute in Harmed. discriminate Harmed.
Qed.

(** [surface_gpe_remove] reads the descriptor through the driver data
    without a check: called for a device that carries none it dereferences
    NULL.  The driver core never makes that call, see
    [platform_device_unregister]. *)
Lemma surface_gpe_remove_needs_descriptor oracle w :
  registered_lid w = None ->
  surface_gpe_remove oracle w = None.
Proof.
  unfold registered_lid. intros Hnone. unfold_driver.
  destruct (device (core w)) as [pd|]; [|reflexivity].
  simpl. by rewrite Hnone.
Qed.

(** C8. Teardown when no wake source was ever registered (the driver is
    bound to no device): [on_teardown] returns without a fault, makes no
    firmware call and leaves the firmware as it is; the wake source stays
    unregistered.  When the module had skipped the machine, or its set-up
    had failed, the device pointer is NULL and the world is not touched
    at all. *)
Theorem teardown_without_wake_source oracle w :
  device_bound (core w) = false ->
  registered_lid w = None ->
  exists w',
    on_teardown oracle w = Some (tt, w')
    /\ acpi w' = acpi w
    /\ firmware_calls (trace w') = firmware_calls (trace w)
    /\ lifecycle_state w' = Unregistered
    /\ (surface_gpe_device w = false -> w' = w).
Proof.
  intros Hb Hnone.
  unfold on_teardown, surface_gpe_exit, platform_device_unregister,
    platform_driver_unregister, extern, modify, bind, ret.
  destruct (surface_gpe_device w) eqn:Hglob; simpl.
  - rewrite Hb. eexists. split; [reflexivity|]. simpl. repeat split.
    + unfold firmware_calls. rewrite !List.filter_app. simpl.
      by rewrite !app_nil_r.
    + discriminate.
  - exists w. repeat split.
    unfold lifecycle_state. by rewrite Hnone.
Qed.

Lemma teardown_without_wake_source_witness :
  exists w w',
    on_init (fails_at 5 1) surface_pro_5 boot_world = Some (0, w)
    /\ device_bound (core w) = false
    /\ on_teardown always_ok w = Some (tt, w')
    /\ acpi w' = acpi w
    /\ firmware_calls (trace w') = firmware_calls (trace w)
    /\ lifecycle_state w' = Unregistered.
Proof.
  destruct (on_init (fails_at 5 1) surface_pro_5 boot_world)
    as [[s w]|] eqn:Hrun; [|vm_compute in Hrun; discriminate Hrun].
  assert (Hw : s = 0 /\ device_bound (core w) = false
               /\ registered_lid w = None).
  { vm_compute in Hrun. injection Hrun as <- <-. repeat split. }
  destruct Hw as (-> & Hb & Hnone).
  destruct (teardown_without_wake_source always_ok w Hb Hnone)
    as (w' & Hexit & Hacpi & Hfw & Hstate & _).
  exists w, w'. repeat split; assumption.
Defined.

(** ** The error code *)

(** C9. A firmware call that fails is always reported upward as the one
    value [-EFAULT]: by [surface_gpe_probe] whichever of its four calls is
    the first to fail, and by [surface_gpe_suspend] and
    [surface_gpe_resume] when their mask call fails; the status the
    firmware gave plays no part.  Without a failure each returns 0. *)
Theorem firmware_failure_is_EFAULT oracle w pd d :
  device (core w) = Some pd ->
  (platform_data pd = Some d ->
   exists status w',
     surface_gpe_probe oracle w = Some (status, w')
     /\ (status = 0 \/ status = - EFAULT)
     /\ (forall k, (k < 4)%nat -> first_failure oracle w k ->
                   status = - EFAULT)
     /\ ((forall i, (i < 4)%nat -> oracle (i + length (trace w))%nat = 0) ->
         status = 0))
  /\ (drvdata pd = Some d ->
      (exists w', surface_gpe_suspend oracle w
                  = Some (if nonzero (oracle (length (trace w)))
                          then - EFAULT else 0, w'))
      /\ (exists w', surface_gpe_resume oracle w
                     = Some (if nonzero (oracle (length (trace w)))
                             then - EFAULT else 0, w'))).
Proof.
  intros Hdev. split.
  - intros Hpd.
    destruct (surface_gpe_probe oracle w) as [[status w']|] eqn:Hrun.
    + exists status, w'. split; [reflexivity|].
      assert (Hcases : status = 0 \/ status = - EFAULT).
      { unfold_driver_in Hrun. rewrite Hdev in Hrun. simpl in Hrun.
        rewrite Hpd in Hrun.
        case_oracle Hrun; rewrite ?Hdev in Hrun; simpl in Hrun;
          injection Hrun as <- _; auto. }
      split; [exact Hcases|]. split.
      * intros k Hk [Hfail Hok].
        destruct Hcases as [->|]; [|done].
        exfalso. apply Hfail.
        apply (surface_gpe_probe_zero oracle w pd d w' Hdev Hpd Hrun k Hk).
      * intros Hok.
        destruct (surface_gpe_probe_ok oracle w pd d Hdev Hpd Hok)
          as (w'' & Hrun' & _).
        congruence.
    + exfalso. unfold_driver_in Hrun. rewrite Hdev in Hrun. simpl in Hrun.
      rewrite Hpd in Hrun.
      case_oracle Hrun; rewrite ?Hdev in Hrun; discriminate Hrun.
  - intros Hdrv.
    assert (Hd : registered_lid w = Some d).
    { unfold registered_lid. by rewrite Hdev. }
    rewrite (surface_gpe_suspend_run _ _ d Hd),
      (surface_gpe_resume_run _ _ d Hd), !surface_lid_enable_wakeup_run.
    simpl.
    destruct (nonzero (oracle (length (trace w)))); split; eexists; reflexivity.
Qed.

Lemma firmware_failure_is_EFAULT_witness :
  (exists w', surface_gpe_suspend (fails_at 0 7)
                (bound_world lid_device_l4F ∅) = Some (- EFAULT, w'))
  /\ (exists w', surface_gpe_resume (fails_at 0 21)
                   (bound_world lid_device_l4F ∅) = Some (- EFAULT, w')).
Proof.
  destruct (firmware_failure_is_EFAULT (fails_at 0 7)
              (bound_world lid_device_l4F ∅)
              {| platform_data := Some lid_device_l4F;
                 drvdata := Some lid_device_l4F |}
              lid_device_l4F eq_refl) as [_ Hs].
  destruct (firmware_failure_is_EFAULT (fails_at 0 21)
              (bound_world lid_device_l4F ∅)
              {| platform_data := Some lid_device_l4F;
                 drvdata := Some lid_device_l4F |}
              lid_device_l4F eq_refl) as [_ Hr].
  split.
  - exact (proj1 (Hs eq_refl)).
  - exact (proj2 (Hr eq_refl)).
Defined.

(** ** Failed set-up *)

(** C10. Set-up is all or nothing.  When, on a machine of the table, one
    of the four steps of [surface_gpe_init] fails (driver registration,
    device allocation, attaching the descriptor, adding the device), the
    function returns the error (the step's status, [-ENOMEM] for the
    allocation) after undoing what was done: the device object is dropped
    and the driver unregistered, so the driver core again holds nothing of
    the module; the firmware was never touched; the device pointer is
    NULL; nothing is probed; and a module exit in that state changes
    nothing. *)
Theorem init_failure_undoes_everything oracle id w m k :
  core_idle (core w) ->
  dmi_first_match id dmi_lid_device_table = Some m ->
  (k < 4)%nat ->
  first_failure oracle w k ->
  exists status w',
    surface_gpe_init oracle id w = Some (status, w')
    /\ on_init oracle id w = Some (status, w')
    /\ status <> 0
    /\ status = (if (k =? 1)%nat then - ENOMEM
                 else oracle (k + length (trace w))%nat)
    /\ core_idle (core w')
    /\ acpi w' = acpi w
    /\ surface_gpe_device w' = false
    /\ lifecycle_state w' = Unregistered
    /\ trace w' = trace w ++ failed_setup_calls (driver_data m) k
    /\ surface_gpe_exit oracle w' = Some (tt, w').
Proof.
  intros Hidle Hm Hk Hff.
  idle_world w Hidle.
  destruct k as [|[|[|[|k]]]]; try lia.
  - split_failure Hff 0%nat.
    unfold_driver. rewrite Hm. use_oracle.
    do 2 eexists. repeat split; try reflexivity; done.
  - split_failure Hff 1%nat.
    unfold_driver. rewrite Hm. use_oracle.
    do 2 eexists. repeat split; try reflexivity; try done.
    unfold failed_setup_calls. simpl. by rewrite <- !app_assoc.
  - split_failure Hff 2%nat.
    unfold_driver. rewrite Hm. use_oracle.
    do 2 eexists. repeat split; try reflexivity; try done.
    unfold failed_setup_calls. simpl. by rewrite <- !app_assoc.
  - split_failure Hff 3%nat.
    unfold_driver. rewrite Hm. use_oracle.
    do 2 eexists. repeat split; try reflexivity; try done.
    unfold failed_setup_calls. simpl. by rewrite <- !app_assoc.
Qed.

Lemma init_failure_undoes_everything_witness :
  exists status w',
    surface_gpe_init (fails_at 3 (-16)) surface_pro_5 boot_world
    = Some (status, w')
    /\ status <> 0
    /\ core_idle (core w')
    /\ surface_gpe_device w' = false
    /\ surface_gpe_exit (fails_at 3 (-16)) w' = Some (tt, w').
Proof.
  destruct (init_failure_undoes_everything (fails_at 3 (-16)) surface_pro_5
              boot_world
              (surface_entry "Surface Pro 5" DMI_PRODUCT_SKU "Surface_Pro_1796"
                 lid_device_l4F) 3)
    as (status & w' & Hrun & _ & Hne & _ & Hidle & _ & Hglob & _ & _ & Hexit).
  - repeat split.
  - vm_compute; reflexivity.
  - lia.
  - split.
    + vm_compute. discriminate.
    + intros [|[|[|i]]] Hi; solve [reflexivity | lia].
  - exists status, w'. repeat (split; [assumption|]). assumption.
Defined.

(** * Further properties of the code *)

(** ** The table *)

Lemma dmi_first_match_sound id (table : list dmi_system_id) m :
  dmi_first_match id table = Some m ->
  In m table /\ dmi_matches id m = true.
Proof.
  induction table as [|d rest IH]; simpl; [discriminate|].
  destruct (dmi_matches id d) eqn:Hd.
  - intros [= <-]. split; [by left | exact Hd].
  - intros H. destruct (IH H) as [Hin Hm]. split; [by right | exact Hm].
Qed.

(** Every entry of the table carries one of the four descriptors. *)
Lemma dmi_lid_device_table_data m :
  In m dmi_lid_device_table ->
  exists d,
    driver_data m = Some d
    /\ In d lid_devices
    /\ acpi_path d = "\_SB.LID0"
    /\ In (gpe_number d) [0x17; 0x4D; 0x4F; 0x57].
Proof.
  intros Hin. simpl in Hin.
  repeat (destruct Hin as [Hin|Hin];
          [subst m; eexists; split; [reflexivity|]; simpl; tauto|]).
  destruct Hin.
Qed.

(** X1. Whatever machine matches, the entry found carries a descriptor
    (its [driver_data] is not NULL), the descriptor is one of the four of
    the file, its path is the lid device [\_SB.LID0] and its GPE number is
    0x17, 0x4D, 0x4F or 0x57. *)
Theorem matched_descriptor_is_a_lid_device id m :
  dmi_first_match id dmi_lid_device_table = Some m ->
  exists d,
    driver_data m = Some d
    /\ match_lid id dmi_lid_device_table = Some d
    /\ In d lid_devices
    /\ acpi_path d = "\_SB.LID0"
    /\ In (gpe_number d) [0x17; 0x4D; 0x4F; 0x57].
Proof.
  intros Hm.
  destruct (dmi_first_match_sound _ _ _ Hm) as [Hin _].
  destruct (dmi_lid_device_table_data m Hin) as (d & Hd & Hl & Hp & Hg).
  exists d. unfold match_lid. rewrite Hm. repeat split; assumption.
Qed.

Lemma matched_descriptor_is_a_lid_device_witness :
  exists d,
    match_lid surface_pro_5 dmi_lid_device_table = Some d
    /\ In d lid_devices
    /\ acpi_path d = "\_SB.LID0".
Proof.
  destruct (matched_descriptor_is_a_lid_device surface_pro_5
              (surface_entry "Surface Pro 5" DMI_PRODUCT_SKU "Surface_Pro_1796"
                 lid_device_l4F))
    as (d & _ & Hd & Hin & Hpath & _).
  - vm_compute; reflexivity.
  - exists d. repeat split; assumption.
Defined.

(** ** The machines the driver is for *)

Lemma dmi_first_match_none_inv id (table : list dmi_system_id) :
  dmi_first_match id table = None ->
  forall d, In d table -> dmi_matches id d = false.
Proof.
  induction table as [|e rest IH]; simpl; [tauto|].
  destruct (dmi_matches id e) eqn:He; [discriminate|].
  intros Hnone d [<-|Hd]; [exact He | by apply IH].
Qed.

Lemma surface_entry_matches id name f value lid :
  dmi_matches id (surface_entry name f value lid) = true
  <-> sys_vendor id = Some "Microsoft Corporation"
      /\ dmi_ident id f = Some value.
Proof.
  unfold dmi_matches. simpl. rewrite !andb_true_iff.
  destruct (sys_vendor id) as [v|], (dmi_ident id f) as [s|];
    rewrite ?String.eqb_eq; split; intros H;
    repeat match goal with H : _ /\ _ |- _ => destruct H end;
    try discriminate; repeat split; congruence.
Qed.

(** X2. The driver is for exactly the machines the table lists.  A
    descriptor is found for a machine if and only if it reports the vendor
    "Microsoft Corporation" and either one of the eight product names or
    one of the three product SKUs of the table, compared exactly. *)
Theorem matches_exactly_the_listed_machines id :
  (exists d, match_lid id dmi_lid_device_table = Some d)
  <-> sys_vendor id = Some "Microsoft Corporation"
      /\ ((exists n, product_name id = Some n /\ In n surface_product_names)
          \/ (exists s, product_sku id = Some s /\ In s surface_product_skus)).
Proof.
  split.
  - intros [d Hd]. unfold match_lid in Hd.
    destruct (dmi_first_match id dmi_lid_device_table) as [m|] eqn:Hm;
      [|discriminate Hd].
    destruct (dmi_first_match_sound _ _ _ Hm) as [Hin Hmatch].
    simpl in Hin.
    repeat (destruct Hin as [Hin|Hin];
            [subst m; apply surface_entry_matches in Hmatch;
             destruct Hmatch as [Hv Hf]; split; [exact Hv|];
             simpl in Hf;
             first [ left; eexists; split; [exact Hf|]; simpl; tauto
                   | right; eexists; split; [exact Hf|]; simpl; tauto ]|]).
    destruct Hin.
  - intros [Hv Hcases].
    destruct (dmi_first_match id dmi_lid_device_table) as [m|] eqn:Hm.
    + destruct (dmi_first_match_sound _ _ _ Hm) as [Hin _].
      destruct (dmi_lid_device_table_data m Hin) as (d & Hd & _).
      exists d. unfold match_lid. by rewrite Hm.
    + exfalso.
      assert (Hno : forall name f value lid,
                In (surface_entry name f value lid) dmi_lid_device_table ->
                dmi_ident id f = Some value -> False).
      { intros name f value lid Hin Hf.
        pose proof (dmi_first_match_none_inv _ _ Hm _ Hin) as Hfalse.
        assert (Htrue : dmi_matches id (surface_entry name f value lid) = true)
          by (by apply surface_entry_matches).
        congruence. }
      destruct Hcases as [(n & Hn & Hin)|(s & Hs & Hin)]; simpl in Hin.
      * repeat (destruct Hin as [Hin|Hin];
                [subst n;
                 eapply (Hno _ DMI_PRODUCT_NAME); [|exact Hn];
                 simpl; repeat first [left; reflexivity | right]|]).
        destruct Hin.
      * repeat (destruct Hin as [Hin|Hin];
                [subst s;
                 eapply (Hno _ DMI_PRODUCT_SKU); [|exact Hs];
                 simpl; repeat first [left; reflexivity | right]|]).
        destruct Hin.
Qed.

(** ** The probe and the set-up *)

(** X3. [surface_gpe_probe] returns [-ENODEV] exactly when the device has
    no platform data, and then it has made no call and changed nothing;
    with platform data its result is 0 or [-EFAULT]. *)
Theorem probe_without_platform_data oracle w pd :
  device (core w) = Some pd ->
  exists status w',
    surface_gpe_probe oracle w = Some (status, w')
    /\ (status = - ENODEV <-> platform_data pd = None)
    /\ (platform_data pd = None -> w' = w)
    /\ (status = 0 \/ status = - EFAULT \/ status = - ENODEV).
Proof.
  intros Hdev.
  destruct (platform_data pd) as [d|] eqn:Hpd.
  - destruct (surface_gpe_probe oracle w) as [[status w']|] eqn:Hrun.
    + exists status, w'. split; [reflexivity|].
      assert (Hcases : status = 0 \/ status = - EFAULT).
      { unfold_driver_in Hrun. rewrite Hdev in Hrun. simpl in Hrun.
        rewrite Hpd in Hrun.
        case_oracle Hrun; rewrite ?Hdev in Hrun; simpl in Hrun;
          injection Hrun as <- _; auto. }
      split; [|split; [discriminate|tauto]].
      split; [|discriminate].
      intros ->. destruct Hcases as [H|H]; discriminate H.
    + exfalso. unfold_driver_in Hrun. rewrite Hdev in Hrun. simpl in Hrun.
      rewrite Hpd in Hrun.
      case_oracle Hrun; rewrite ?Hdev in Hrun; discriminate Hrun.
  - exists (- ENODEV), w. unfold_driver. rewrite Hdev. simpl. rewrite Hpd.
    repeat split; auto.
Qed.

Lemma probe_without_platform_data_witness :
  surface_gpe_probe (fails_at 0 1) (set_core (setup_core None) boot_world)
  = Some (- ENODEV, set_core (setup_core None) boot_world).
Proof.
  destruct (probe_without_platform_data (fails_at 0 1)
              (set_core (setup_core None) boot_world)
              {| platform_data := None; drvdata := None |} eq_refl)
    as (status & w' & Hrun & Hiff & Hsame & _).
  rewrite Hrun, (proj2 Hiff eq_refl), (Hsame eq_refl). reflexivity.
Defined.

(** What [surface_gpe_init] leaves behind when the driver core held
    nothing of the module: it always returns, without touching the
    firmware; either the device pointer is NULL and the driver core is idle
    again, or a machine matched, 0 is returned, the pointer is set and the
    driver core is [setup_core] for the matched entry's data. *)
Lemma surface_gpe_init_outcome oracle id w :
  core_idle (core w) ->
  exists status w',
    surface_gpe_init oracle id w = Some (status, w')
    /\ acpi w' = acpi w
    /\ firmware_calls (trace w') = firmware_calls (trace w)
    /\ ((surface_gpe_device w' = false /\ core_idle (core w'))
        \/ (exists m,
              dmi_first_match id dmi_lid_device_table = Some m
              /\ status = 0
              /\ surface_gpe_device w' = true
              /\ core w' = setup_core (driver_data m)
              /\ trace w' = trace w ++ setup_calls (driver_data m)
              /\ forall i, (i < 4)%nat -> oracle (i + length (trace w))%nat = 0)).
Proof.
  intros Hidle. idle_world w Hidle.
  destruct (surface_gpe_init oracle id _) as [[status w']|] eqn:Hrun.
  - exists status, w'. split; [reflexivity|].
    unfold_driver_in Hrun.
    destruct (dmi_first_match id dmi_lid_device_table) as [m|].
    + case_oracle Hrun; injection Hrun as <- <-; norm_world.
      all: split; [reflexivity|].
      all: split;
        [unfold firmware_calls; rewrite ?List.filter_app; simpl;
         by rewrite ?app_nil_r|].
      all: try (left; split; [reflexivity|repeat split]).
      right. exists m. repeat split.
      * by rewrite <- !app_assoc.
      * intros [|[|[|[|i]]]] Hi; simpl; done || lia.
    + injection Hrun as <- <-. repeat split. left. repeat split.
  - exfalso. unfold_driver_in Hrun.
    destruct (dmi_first_match id dmi_lid_device_table) as [m|];
      [case_oracle Hrun|]; discriminate Hrun.
Qed.

(** X4. [surface_gpe_init] never touches the firmware, whatever the
    machine and whatever the platform bus answers: it always returns, makes
    no firmware call and leaves the firmware state as it was.  It returns 0
    with the device pointer set only after all four bus calls succeeded,
    and then the driver is registered and the device is on the bus with a
    copy of the matched descriptor as platform data. *)
Theorem init_never_touches_firmware oracle id w :
  core_idle (core w) ->
  exists status w',
    surface_gpe_init oracle id w = Some (status, w')
    /\ acpi w' = acpi w
    /\ firmware_calls (trace w') = firmware_calls (trace w)
    /\ lifecycle_state w' = Unregistered
    /\ (surface_gpe_device w' = true ->
        status = 0
        /\ core w' = setup_core (match_lid id dmi_lid_device_table)
        /\ trace w' = trace w
                      ++ setup_calls (match_lid id dmi_lid_device_table)
        /\ forall i, (i < 4)%nat -> oracle (i + length (trace w))%nat = 0).
Proof.
  intros Hidle.
  destruct (surface_gpe_init_outcome oracle id w Hidle)
    as (status & w' & Hrun & Hacpi & Hfw & Hcases).
  exists status, w'. do 3 (split; [assumption|]).
  destruct Hcases as [[Hglob Hc]|(m & Hm & -> & Hglob & Hc & Htrace & Hok)].
  - split.
    + destruct Hc as (_ & Hdev & _).
      unfold lifecycle_state, registered_lid. by rewrite Hdev.
    + rewrite Hglob. discriminate.
  - assert (Hlid : match_lid id dmi_lid_device_table = driver_data m).
    { unfold match_lid. by rewrite Hm. }
    rewrite Hlid. split.
    + unfold lifecycle_state, registered_lid. by rewrite Hc.
    + intros _. repeat split; assumption.
Qed.

Lemma init_never_touches_firmware_witness :
  exists w',
    surface_gpe_init always_ok surface_pro_5 boot_world = Some (0, w')
    /\ acpi w' = acpi boot_world
    /\ firmware_calls (trace w') = []
    /\ core w' = setup_core (Some lid_device_l4F).
Proof.
  destruct (init_never_touches_firmware always_ok surface_pro_5 boot_world)
    as (status & w' & Hrun & Hacpi & Hfw & _ & Hset).
  - repeat split.
  - assert (Hglob : surface_gpe_device w' = true).
    { vm_compute in Hrun. by injection Hrun as _ <-. }
    destruct (Hset Hglob) as (-> & Hc & _).
    exists w'. repeat split; assumption.
Defined.

(** ** What the firmware calls leave alone *)

Lemma gpe_untouched_refl g a : gpe_untouched g a a.
Proof. by repeat split. Qed.

Lemma gpe_untouched_trans g a1 a2 a3 :
  gpe_untouched g a1 a2 -> gpe_untouched g a2 a3 -> gpe_untouched g a1 a3.
Proof.
  intros (Hm1 & Hc1 & Hr1) (Hm2 & Hc2 & Hr2). repeat split.
  - intros H. by apply Hm1, Hm2.
  - intros H. by apply Hm2, Hm1.
  - intros H. by apply Hc1, Hc2.
  - intros H. by apply Hc2, Hc1.
  - by rewrite Hr2, Hr1.
Qed.

Lemma gpe_untouched_mark g gpe a :
  g <> gpe -> gpe_untouched g a (mark_for_wake gpe a).
Proof.
  intros Hne. repeat split; simpl; try tauto.
  - rewrite elem_of_union, elem_of_singleton. tauto.
  - apply elem_of_union_r.
Qed.

Lemma gpe_untouched_add g gpe a :
  g <> gpe -> gpe_untouched g a (add_reference gpe a).
Proof.
  intros Hne. repeat split; simpl; try tauto.
  unfold runtime_count at 1. simpl. by rewrite lookup_insert_ne.
Qed.

Lemma gpe_untouched_remove g gpe a :
  g <> gpe -> gpe_untouched g a (remove_reference gpe a).
Proof.
  intros Hne. repeat split; simpl; try tauto.
  unfold runtime_count at 1. simpl. by rewrite lookup_insert_ne.
Qed.

Lemma gpe_untouched_mask g gpe action a :
  g <> gpe -> gpe_untouched g a (write_wake_mask gpe action a).
Proof.
  intros Hne. repeat split; simpl; try tauto; destruct action.
  - rewrite elem_of_union, elem_of_singleton. tauto.
  - rewrite elem_of_difference. tauto.
  - apply elem_of_union_r.
  - intros H. apply elem_of_difference. split; [exact H|].
    by rewrite elem_of_singleton.
Qed.

Ltac untouched :=
  repeat first
    [ apply gpe_untouched_refl
    | eapply gpe_untouched_trans;
      [|first [ by apply gpe_untouched_mask | by apply gpe_untouched_remove
              | by apply gpe_untouched_add | by apply gpe_untouched_mark ]] ].

(** [surface_gpe_probe] on a device with platform data [d]: it returns 0
    or [-EFAULT], attaches [d] exactly when it returns 0, and changes the
    firmware state of no GPE but [d]'s. *)
Lemma surface_gpe_probe_frame oracle w pd d :
  device (core w) = Some pd ->
  platform_data pd = Some d ->
  exists status w',
    surface_gpe_probe oracle w = Some (status, w')
    /\ (status = 0 \/ status = - EFAULT)
    /\ same_off (gpe_number d) (acpi w) (acpi w')
    /\ surface_gpe_device w' = surface_gpe_device w
    /\ core w'
       = set_device (Some {| platform_data := Some d;
                             drvdata := if nonzero status then drvdata pd
                                        else Some d |}) (core w).
Proof.
  intros Hdev Hpd.
  destruct (surface_gpe_probe oracle w) as [[status w']|] eqn:Hrun.
  - exists status, w'. split; [reflexivity|].
    unfold_driver_in Hrun. rewrite Hdev in Hrun. simpl in Hrun.
    rewrite Hpd in Hrun.
    case_oracle Hrun; rewrite ?Hdev in Hrun; simpl in Hrun;
      injection Hrun as <- <-.
    all: split; [auto|].
    all: split; [intros g Hg; simpl; untouched|].
    all: split; [reflexivity|].
    all: simpl.
    all: destruct w as [a [reg dev added bound] glob tr]; simpl in *.
    all: subst dev; destruct pd as [pdata dd]; simpl in *; subst pdata.
    all: reflexivity.
  - exfalso. unfold_driver_in Hrun. rewrite Hdev in Hrun. simpl in Hrun.
    rewrite Hpd in Hrun.
    case_oracle Hrun; rewrite ?Hdev in Hrun; discriminate Hrun.
Qed.

(** [surface_gpe_remove] on a device that carries [d]: it returns 0 with
    the driver data cleared, and changes the firmware state of no GPE but
    [d]'s. *)
Lemma surface_gpe_remove_frame oracle w pd d :
  device (core w) = Some pd ->
  drvdata pd = Some d ->
  exists w',
    surface_gpe_remove oracle w = Some (0, w')
    /\ same_off (gpe_number d) (acpi w) (acpi w')
    /\ surface_gpe_device w' = surface_gpe_device w
    /\ core w' = set_device (Some {| platform_data := platform_data pd;
                                     drvdata := None |}) (core w).
Proof.
  intros Hdev Hdrv.
  destruct (surface_gpe_remove oracle w) as [[status w']|] eqn:Hrun.
  - unfold_driver_in Hrun. rewrite Hdev in Hrun. simpl in Hrun.
    rewrite Hdrv in Hrun.
    case_oracle Hrun; rewrite ?Hdev in Hrun; simpl in Hrun;
      injection Hrun as <- <-.
    all: eexists; split; [reflexivity|].
    all: split; [intros g Hg; simpl; untouched|].
    all: split; reflexivity.
  - exfalso. unfold_driver_in Hrun. rewrite Hdev in Hrun. simpl in Hrun.
    rewrite Hdrv in Hrun.
    case_oracle Hrun; rewrite ?Hdev in Hrun; discriminate Hrun.
Qed.

(** A power management callback of a registered wake source in full: one
    call, [pm_call], on the log; [-EFAULT] exactly when the firmware
    refuses it; the mask bit follows the event when it accepts; everything
    else stays. *)
Lemma pm_hook_frame oracle e w d :
  device_bound (core w) = true ->
  registered_lid w = Some d ->
  exists status w',
    pm_hook oracle e w = Some (status, w')
    /\ (status = 0 \/ status = - EFAULT)
    /\ (status = - EFAULT <-> oracle (length (trace w)) <> 0)
    /\ core w' = core w
    /\ surface_gpe_device w' = surface_gpe_device w
    /\ trace w' = trace w ++ [pm_call d e]
    /\ gpe_can_wake (acpi w') = gpe_can_wake (acpi w)
    /\ gpe_runtime_count (acpi w') = gpe_runtime_count (acpi w)
    /\ same_off (gpe_number d) (acpi w) (acpi w')
    /\ (status = 0 ->
        wake_armed w' (gpe_number d)
        = match e with PmSuspend => true | PmResume => false end)
    /\ (status <> 0 -> acpi w' = acpi w).
Proof.
  intros Hb Hd.
  destruct e; simpl.
  - rewrite (on_suspend_run _ _ d Hb Hd). cbv zeta.
    destruct (nonzero (oracle (length (trace w)))) eqn:Hs;
      [apply nonzero_true in Hs | apply nonzero_false in Hs].
    all: do 2 eexists; split; [reflexivity|].
    all: split; [auto|].
    all: split;
      [split; intros H;
       first [exact Hs | reflexivity | discriminate H | by destruct H]|].
    all: do 5 (split; [reflexivity|]).
    all: split; [intros g Hg; simpl; untouched|].
    all: split; [|intros H; first [reflexivity | by destruct H]].
    all: intros H; try discriminate H.
    unfold wake_armed. simpl. apply mask_set.
  - rewrite (on_resume_run _ _ d Hb Hd). cbv zeta.
    destruct (nonzero (oracle (length (trace w)))) eqn:Hs;
      [apply nonzero_true in Hs | apply nonzero_false in Hs].
    all: do 2 eexists; split; [reflexivity|].
    all: split; [auto|].
    all: split;
      [split; intros H;
       first [exact Hs | reflexivity | discriminate H | by destruct H]|].
    all: do 5 (split; [reflexivity|]).
    all: split; [intros g Hg; simpl; untouched|].
    all: split; [|intros H; first [reflexivity | by destruct H]].
    all: intros H; try discriminate H.
    unfold wake_armed. simpl. apply mask_cleared.
Qed.

(** ** A whole life of the module *)

Lemma only_matched_gpe_refl id a : only_matched_gpe id a a.
Proof. intros g _. apply gpe_untouched_refl. Qed.

Lemma only_matched_gpe_trans id a1 a2 a3 :
  only_matched_gpe id a1 a2 -> only_matched_gpe id a2 a3 ->
  only_matched_gpe id a1 a3.
Proof.
  intros H1 H2 g Hg. eapply gpe_untouched_trans; [by apply H1 | by apply H2].
Qed.

Lemma same_off_only_matched id d a a' :
  match_lid id dmi_lid_device_table = Some d ->
  same_off (gpe_number d) a a' ->
  only_matched_gpe id a a'.
Proof. intros Hm Hoff g Hg. apply Hoff. by apply Hg. Qed.

(** [on_init], started when the driver core holds nothing of the module,
    always returns and leaves a world the host can dispatch on. *)
Lemma on_init_safe oracle id w :
  core_idle (core w) ->
  exists status w',
    on_init oracle id w = Some (status, w')
    /\ dispatch_safe id w'
    /\ only_matched_gpe id (acpi w) (acpi w').
Proof.
  intros Hidle.
  destruct (surface_gpe_init_outcome oracle id w Hidle)
    as (status & w1 & Hinit & Hacpi & _
        & [[Hglob Hc]|(m & Hm & -> & Hglob & Hc & _ & _)]).
  - exists status, w1.
    destruct Hc as (Hreg & Hdev & Hadded & Hbound).
    unfold on_init, bind. rewrite Hinit.
    unfold driver_probe_device. rewrite Hreg. simpl.
    split; [reflexivity|]. split.
    + unfold dispatch_safe, registered_lid. rewrite Hbound, Hdev.
      repeat split; (discriminate || done).
    + rewrite Hacpi. apply only_matched_gpe_refl.
  - destruct (dmi_first_match_sound _ _ _ Hm) as [Hin _].
    destruct (dmi_lid_device_table_data m Hin) as (d & Hd & _).
    assert (Hlid : match_lid id dmi_lid_device_table = Some d).
    { unfold match_lid. by rewrite Hm. }
    rewrite Hd in Hc.
    destruct (surface_gpe_probe_frame oracle w1
                {| platform_data := Some d; drvdata := None |} d)
      as (sp & w2 & Hp & Hcases & Hoff & Hglob2 & Hc2);
      [by rewrite Hc | reflexivity |].
    eexists 0, _.
    unfold on_init, bind. rewrite Hinit.
    unfold driver_probe_device. rewrite Hc. simpl.
    unfold bind. rewrite Hp. unfold modify, ret.
    split; [reflexivity|]. split.
    + unfold dispatch_safe, registered_lid. simpl.
      rewrite Hc2, Hc, Hglob2, Hglob. simpl.
      destruct Hcases as [->| ->]; simpl;
        repeat split; try discriminate; eauto; try congruence.
    + simpl. rewrite <- Hacpi.
      by apply (same_off_only_matched id d).
Qed.

(** A power management callback, dispatched on such a world, returns 0 or
    [-EFAULT] and leaves such a world. *)
Lemma pm_hook_safe oracle id e w :
  dispatch_safe id w ->
  exists status w',
    pm_hook oracle e w = Some (status, w')
    /\ (status = 0 \/ status = - EFAULT)
    /\ dispatch_safe id w'
    /\ only_matched_gpe id (acpi w) (acpi w').
Proof.
  intros (Hb & Hm & Hg).
  destruct (device_bound (core w)) eqn:Hbound.
  - destruct (Hb eq_refl) as [d Hd].
    destruct (pm_hook_frame oracle e w d Hbound Hd)
      as (status & w' & Hrun & Hcases & _ & Hc & Hglob & _ & _ & _ & Hoff & _).
    exists status, w'. split; [exact Hrun|]. split; [exact Hcases|]. split.
    + unfold dispatch_safe, registered_lid in *. rewrite Hc, Hglob, Hbound.
      split; [eauto|]. split; [exact Hm | exact Hg].
    + apply (same_off_only_matched id d); auto.
  - exists 0, w. split.
    + destruct e; simpl; unfold on_suspend, on_resume; by rewrite Hbound.
    + split; [auto|]. split.
      * unfold dispatch_safe. rewrite Hbound.
        split; [discriminate|]. split; [exact Hm | exact Hg].
      * apply only_matched_gpe_refl.
Qed.

Lemma pm_sequence_safe oracle id es w :
  dispatch_safe id w ->
  exists w',
    pm_sequence oracle es w = Some (tt, w')
    /\ dispatch_safe id w'
    /\ only_matched_gpe id (acpi w) (acpi w').
Proof.
  revert w. induction es as [|e es IH]; intros w Hsafe.
  - exists w. split; [reflexivity|].
    split; [exact Hsafe | apply only_matched_gpe_refl].
  - destruct (pm_hook_safe oracle id e w Hsafe)
      as (status & w1 & Hrun & _ & Hsafe1 & Hoff1).
    destruct (IH w1 Hsafe1) as (w' & Hrest & Hsafe' & Hoff').
    exists w'. simpl. unfold bind. rewrite Hrun.
    split; [exact Hrest|]. split; [exact Hsafe'|].
    by apply (only_matched_gpe_trans id _ (acpi w1)).
Qed.

(** Teardown, dispatched on such a world, returns and leaves the driver
    core holding nothing of the module. *)
Lemma on_teardown_safe oracle id w :
  dispatch_safe id w ->
  exists w',
    on_teardown oracle w = Some (tt, w')
    /\ core_idle (core w')
    /\ lifecycle_state w' = Unregistered
    /\ only_matched_gpe id (acpi w) (acpi w').
Proof.
  intros (Hb & Hm & Hg).
  unfold on_teardown, surface_gpe_exit, bind.
  destruct (surface_gpe_device w) eqn:Hglob; simpl.
  - unfold platform_device_unregister, platform_driver_unregister,
      extern, modify, bind, ret. simpl.
    destruct (device_bound (core w)) eqn:Hbound.
    + destruct (Hb eq_refl) as [d Hd].
      unfold registered_lid in Hd.
      destruct (device (core w)) as [pd|] eqn:Hdev; [|discriminate Hd].
      destruct (surface_gpe_remove_frame oracle
                  (log PlatformDeviceUnregister w) pd d Hdev Hd)
        as (w1 & Hrun & Hoff & _ & _).
      rewrite Hrun. eexists. split; [reflexivity|]. simpl.
      split; [by repeat split|]. split; [reflexivity|].
      apply (same_off_only_matched id d); [|exact Hoff].
      apply Hm. unfold registered_lid. by rewrite Hdev.
    + eexists. split; [reflexivity|]. simpl.
      split; [by repeat split|]. split; [reflexivity|].
      apply only_matched_gpe_refl.
  - exists w. split; [reflexivity|]. split; [by apply Hg|].
    split; [|apply only_matched_gpe_refl].
    destruct (Hg eq_refl) as (_ & Hdev & _).
    unfold lifecycle_state, registered_lid. by rewrite Hdev.
Qed.

Lemma module_lifetime_safe oracle id es w :
  core_idle (core w) ->
  exists status w',
    module_lifetime oracle id es w = Some (status, w')
    /\ core_idle (core w')
    /\ lifecycle_state w' = Unregistered
    /\ only_matched_gpe id (acpi w) (acpi w').
Proof.
  intros Hidle.
  destruct (on_init_safe oracle id w Hidle)
    as (status & w1 & Hinit & Hsafe1 & Hoff1).
  destruct (pm_sequence_safe oracle id es w1 Hsafe1)
    as (w2 & Hseq & Hsafe2 & Hoff2).
  destruct (on_teardown_safe oracle id w2 Hsafe2)
    as (w3 & Hexit & Hc & Hstate & Hoff3).
  exists status, w3.
  unfold module_lifetime, bind. rewrite Hinit, Hseq, Hexit.
  split; [reflexivity|]. split; [exact Hc|]. split; [exact Hstate|].
  apply (only_matched_gpe_trans id _ (acpi w2)); [|exact Hoff3].
  by apply (only_matched_gpe_trans id _ (acpi w1)).
Qed.

(** X5. A whole life of the module never faults.  Loaded while the driver
    core holds nothing of it, on any machine, with any sequence of suspend
    and resume events in any order and whatever the firmware and the
    platform bus answer, the module's functions never dereference a NULL
    descriptor, and after unload the driver core again holds nothing of
    the module and no wake source is registered. *)
Theorem module_lifetime_never_faults oracle id es w :
  core_idle (core w) ->
  exists status w',
    module_lifetime oracle id es w = Some (status, w')
    /\ core_idle (core w')
    /\ lifecycle_state w' = Unregistered.
Proof.
  intros Hidle.
  destruct (module_lifetime_safe oracle id es w Hidle)
    as (status & w' & Hrun & Hc & Hstate & _).
  exists status, w'. split; [exact Hrun|]. split; [exact Hc | exact Hstate].
Qed.

Lemma module_lifetime_never_faults_witness :
  exists status w',
    module_lifetime (fails_at 9 1) surface_pro_5
      [PmResume; PmSuspend; PmSuspend; PmResume] boot_world
    = Some (status, w')
    /\ core_idle (core w')
    /\ lifecycle_state w' = Unregistered.
Proof.
  apply (module_lifetime_never_faults (fails_at 9 1) surface_pro_5
           [PmResume; PmSuspend; PmSuspend; PmResume] boot_world).
  repeat split.
Defined.

(** X6. Over a whole life of the module the firmware state of every GPE
    other than the one matched for the machine stays as it was: its wake
    mask bit, its wake marking and its reference count.  On a machine that
    matches no entry this is every GPE. *)
Theorem module_lifetime_touches_only_matched_gpe oracle id es w g :
  core_idle (core w) ->
  (forall d, match_lid id dmi_lid_device_table = Some d -> g <> gpe_number d) ->
  exists status w',
    module_lifetime oracle id es w = Some (status, w')
    /\ (g ∈ gpe_wake_mask (acpi w') <-> g ∈ gpe_wake_mask (acpi w))
    /\ (g ∈ gpe_can_wake (acpi w') <-> g ∈ gpe_can_wake (acpi w))
    /\ runtime_count (acpi w') g = runtime_count (acpi w) g.
Proof.
  intros Hidle Hg.
  destruct (module_lifetime_safe oracle id es w Hidle)
    as (status & w' & Hrun & _ & _ & Hoff).
  exists status, w'. split; [exact Hrun|]. by apply Hoff.
Qed.

Lemma module_lifetime_touches_only_matched_gpe_witness :
  exists status w',
    module_lifetime always_ok surface_pro_5 [PmSuspend; PmResume] boot_world
    = Some (status, w')
    /\ (0x17 ∈ gpe_wake_mask (acpi w') <-> 0x17 ∈ gpe_wake_mask (acpi boot_world))
    /\ (0x17 ∈ gpe_can_wake (acpi w') <-> 0x17 ∈ gpe_can_wake (acpi boot_world))
    /\ runtime_count (acpi w') 0x17 = runtime_count (acpi boot_world) 0x17.
Proof.
  apply (module_lifetime_touches_only_matched_gpe always_ok surface_pro_5
           [PmSuspend; PmResume] boot_world 0x17).
  - repeat split.
  - intros d Hd. vm_compute in Hd. injection Hd as <-. simpl. lia.
Defined.

(** ** Set-up followed by a failing probe *)

Lemma surface_gpe_init_ok oracle id w m :
  core_idle (core w) ->
  dmi_first_match id dmi_lid_device_table = Some m ->
  (forall i, (i < 4)%nat -> oracle (i + length (trace w))%nat = 0) ->
  surface_gpe_init oracle id w = Some (0, setup_world (driver_data m) w).
Proof.
  intros Hidle Hm Hok. idle_world w Hidle.
  assert (H0 := Hok 0%nat ltac:(lia)). assert (H1 := Hok 1%nat ltac:(lia)).
  assert (H2 := Hok 2%nat ltac:(lia)). assert (H3 := Hok 3%nat ltac:(lia)).
  simpl in H0, H1, H2, H3.
  unfold_driver. rewrite Hm. use_oracle.
  do 2 f_equal. unfold setup_world, setup_core. norm_world.
  by rewrite <- !app_assoc.
Qed.

(** [on_init] once the set-up went through: 0 is returned whatever the
    probe does; the driver ends bound exactly when the probe returned 0. *)
Lemma on_init_after_setup oracle id w m d :
  core_idle (core w) ->
  dmi_first_match id dmi_lid_device_table = Some m ->
  driver_data m = Some d ->
  (forall i, (i < 4)%nat -> oracle (i + length (trace w))%nat = 0) ->
  exists sp w2,
    surface_gpe_probe oracle (setup_world (Some d) w) = Some (sp, w2)
    /\ (sp = 0 \/ sp = - EFAULT)
    /\ on_init oracle id w
       = Some (0, set_core (set_device_bound (negb (nonzero sp)) (core w2)) w2)
    /\ surface_gpe_device w2 = true
    /\ core w2
       = set_device (Some {| platform_data := Some d;
                             drvdata := if nonzero sp then None else Some d |})
           (setup_core (Some d)).
Proof.
  intros Hidle Hm Hd Hok.
  pose proof (surface_gpe_init_ok oracle id w m Hidle Hm Hok) as Hinit.
  rewrite Hd in Hinit.
  destruct (surface_gpe_probe_frame oracle (setup_world (Some d) w)
              {| platform_data := Some d; drvdata := None |} d
              eq_refl eq_refl)
    as (sp & w2 & Hp & Hcases & _ & Hglob & Hc).
  exists sp, w2. split; [exact Hp|]. split; [exact Hcases|].
  split; [|split; [exact Hglob | exact Hc]].
  unfold on_init, bind. rewrite Hinit.
  unfold driver_probe_device. simpl. unfold bind. by rewrite Hp.
Qed.

(** X7. The caller of the module's init function does not learn of a
    failed registration.  When a machine matched and the four platform bus
    calls succeeded, [on_init] returns 0 with the device pointer set even
    though one of the probe's firmware calls fails: the driver is
    registered and the device is on the bus, but the driver is not bound to
    it and no wake source is registered. *)
Theorem init_succeeds_though_probe_fails oracle id w m k :
  core_idle (core w) ->
  dmi_first_match id dmi_lid_device_table = Some m ->
  (k < 4)%nat ->
  first_failure oracle w (4 + k) ->
  exists w',
    on_init oracle id w = Some (0, w')
    /\ init_result_of 0 w' = InitOk
    /\ surface_gpe_device w' = true
    /\ driver_registered (core w') = true
    /\ device_added (core w') = true
    /\ device_bound (core w') = false
    /\ lifecycle_state w' = Unregistered.
Proof.
  intros Hidle Hm Hk [Hfail Hok].
  destruct (dmi_first_match_sound _ _ _ Hm) as [Hin _].
  destruct (dmi_lid_device_table_data m Hin) as (d & Hd & _).
  assert (Hok4 : forall i, (i < 4)%nat -> oracle (i + length (trace w))%nat = 0).
  { intros i Hi. apply Hok. lia. }
  destruct (on_init_after_setup oracle id w m d Hidle Hm Hd Hok4)
    as (sp & w2 & Hp & Hcases & Hrun & Hglob & Hc).
  assert (Hsp : sp = - EFAULT).
  { destruct Hcases as [->|]; [|done]. exfalso. apply Hfail.
    pose proof (surface_gpe_probe_zero oracle (setup_world (Some d) w)
                  {| platform_data := Some d; drvdata := None |} d w2
                  eq_refl eq_refl Hp k Hk) as Hz.
    simpl in Hz. rewrite length_app in Hz. simpl in Hz.
    by replace (4 + k + length (trace w))%nat
      with (k + (length (trace w) + 4))%nat by lia. }
  subst sp. eexists. split; [exact Hrun|].
  unfold init_result_of, lifecycle_state, registered_lid. simpl.
  rewrite Hglob, Hc. simpl. by repeat split.
Qed.

Lemma init_succeeds_though_probe_fails_witness :
  exists w',
    on_init (fails_at 5 1) surface_pro_5 boot_world = Some (0, w')
    /\ init_result_of 0 w' = InitOk
    /\ device_bound (core w') = false
    /\ lifecycle_state w' = Unregistered.
Proof.
  destruct (init_succeeds_though_probe_fails (fails_at 5 1) surface_pro_5
              boot_world
              (surface_entry "Surface Pro 5" DMI_PRODUCT_SKU "Surface_Pro_1796"
                 lid_device_l4F) 1)
    as (w' & Hrun & Hres & _ & _ & _ & Hb & Hstate).
  - repeat split.
  - vm_compute; reflexivity.
  - lia.
  - split.
    + vm_compute. discriminate.
    + intros [|[|[|[|[|i]]]]] Hi; solve [reflexivity | lia].
  - exists w'. repeat split; assumption.
Defined.

(** X8. The device the module sets up always carries a descriptor: after a
    [surface_gpe_init] that set the device pointer, whatever the machine,
    [surface_gpe_probe] on that device finds its platform data, so it
    returns 0 or [-EFAULT] and never [-ENODEV]. *)
Theorem own_device_always_has_platform_data oracle id w status w1 :
  core_idle (core w) ->
  surface_gpe_init oracle id w = Some (status, w1) ->
  surface_gpe_device w1 = true ->
  exists d sp w2,
    match_lid id dmi_lid_device_table = Some d
    /\ device (core w1) = Some {| platform_data := Some d; drvdata := None |}
    /\ surface_gpe_probe oracle w1 = Some (sp, w2)
    /\ (sp = 0 \/ sp = - EFAULT).
Proof.
  intros Hidle Hrun Hglob.
  destruct (surface_gpe_init_outcome oracle id w Hidle)
    as (status' & w1' & Hrun' & _ & _ & Hcases).
  rewrite Hrun in Hrun'. injection Hrun' as <- <-.
  destruct Hcases as [[Hnull _]|(m & Hm & _ & _ & Hc & _)]; [congruence|].
  destruct (dmi_first_match_sound _ _ _ Hm) as [Hin _].
  destruct (dmi_lid_device_table_data m Hin) as (d & Hd & _).
  rewrite Hd in Hc.
  assert (Hdev : device (core w1)
                 = Some {| platform_data := Some d; drvdata := None |})
    by (by rewrite Hc).
  destruct (surface_gpe_probe_frame oracle w1 _ d Hdev eq_refl)
    as (sp & w2 & Hp & Hsp & _).
  exists d, sp, w2. unfold match_lid. rewrite Hm. by repeat split.
Qed.

Lemma own_device_always_has_platform_data_witness :
  exists w1 d sp w2,
    surface_gpe_init always_ok surface_pro_5 boot_world = Some (0, w1)
    /\ match_lid surface_pro_5 dmi_lid_device_table = Some d
    /\ surface_gpe_probe always_ok w1 = Some (sp, w2)
    /\ (sp = 0 \/ sp = - EFAULT).
Proof.
  destruct (surface_gpe_init always_ok surface_pro_5 boot_world)
    as [[status w1]|] eqn:Hrun; [|vm_compute in Hrun; discriminate Hrun].
  assert (Hw : status = 0 /\ surface_gpe_device w1 = true).
  { vm_compute in Hrun. injection Hrun as <- <-. split; reflexivity. }
  destruct Hw as [-> Hglob].
  destruct (own_device_always_has_platform_data always_ok surface_pro_5
              boot_world 0 w1)
    as (d & sp & w2 & Hd & _ & Hp & Hsp).
  - repeat split.
  - exact Hrun.
  - exact Hglob.
  - exists w1, d, sp, w2. repeat split; assumption.
Defined.

(** ** Suspend and resume in any order *)

(** X9. A suspend or resume callback of a registered wake source makes
    exactly one [acpi_set_gpe_wake_mask] call for the source's GPE and
    returns 0 or [-EFAULT].  It touches nothing but that GPE's wake mask
    bit: the device pointer, the driver core, the wake markings, the
    reference counts and the mask bits of all other GPEs are as before. *)
Theorem pm_callbacks_touch_only_the_wake_mask oracle e w d :
  device_bound (core w) = true ->
  registered_lid w = Some d ->
  exists status w',
    pm_hook oracle e w = Some (status, w')
    /\ (status = 0 \/ status = - EFAULT)
    /\ trace w' = trace w ++ [pm_call d e]
    /\ core w' = core w
    /\ surface_gpe_device w' = surface_gpe_device w
    /\ gpe_can_wake (acpi w') = gpe_can_wake (acpi w)
    /\ gpe_runtime_count (acpi w') = gpe_runtime_count (acpi w)
    /\ forall g, g <> gpe_number d ->
         (g ∈ gpe_wake_mask (acpi w') <-> g ∈ gpe_wake_mask (acpi w)).
Proof.
  intros Hb Hd.
  destruct (pm_hook_frame oracle e w d Hb Hd)
    as (status & w' & Hrun & Hcases & _ & Hc & Hglob & Htrace & Hcw & Hrc
        & Hoff & _).
  exists status, w'. do 7 (split; [assumption|]).
  intros g Hg. by destruct (Hoff g Hg).
Qed.

Lemma pm_callbacks_touch_only_the_wake_mask_witness :
  exists status w',
    pm_hook (fails_at 0 3) PmSuspend (bound_world lid_device_l4F {[0x17]})
    = Some (status, w')
    /\ trace w' = [AcpiSetGpeWakeMask 0x4F ACPI_GPE_ENABLE]
    /\ (0x17 ∈ gpe_wake_mask (acpi w')
        <-> 0x17 ∈ gpe_wake_mask (acpi (bound_world lid_device_l4F {[0x17]}))).
Proof.
  destruct (pm_callbacks_touch_only_the_wake_mask (fails_at 0 3) PmSuspend
              (bound_world lid_device_l4F {[0x17]}) lid_device_l4F
              eq_refl eq_refl)
    as (status & w' & Hrun & _ & Htrace & _ & _ & _ & _ & Hoff).
  exists status, w'. split; [exact Hrun|]. split; [exact Htrace|].
  apply Hoff. simpl. lia.
Defined.

(** X10. A resume that no suspend preceded is harmless: on a wake source
    that is registered and not armed, [on_resume] makes its one call and,
    whatever the firmware answers, leaves the whole world as it was but
    for that entry on the log. *)
Theorem resume_without_suspend_changes_nothing oracle w d :
  device_bound (core w) = true ->
  registered_lid w = Some d ->
  wake_armed w (gpe_number d) = false ->
  exists status,
    on_resume oracle w
    = Some (status, log (AcpiSetGpeWakeMask (gpe_number d) ACPI_GPE_DISABLE) w)
    /\ (status = 0 \/ status = - EFAULT).
Proof.
  intros Hb Hd Hm.
  rewrite (on_resume_run _ _ d Hb Hd). cbv zeta.
  destruct (nonzero (oracle (length (trace w)))).
  - exists (- EFAULT). split; [reflexivity | by right].
  - exists 0. split; [|by left].
    do 2 f_equal.
    destruct w as [[cw rc mask] c g t].
    unfold set_acpi, log, write_wake_mask. simpl. do 2 f_equal.
    unfold wake_armed in Hm. simpl in Hm. apply bool_decide_eq_false in Hm.
    apply set_eq. intros x. rewrite elem_of_difference, elem_of_singleton.
    split; [tauto|]. intros Hx. split; [exact Hx | congruence].
Qed.

Lemma resume_without_suspend_changes_nothing_witness :
  exists status,
    on_resume always_ok (bound_world lid_device_l4F ∅)
    = Some (status, log (AcpiSetGpeWakeMask 0x4F ACPI_GPE_DISABLE)
                      (bound_world lid_device_l4F ∅))
    /\ (status = 0 \/ status = - EFAULT).
Proof.
  apply (resume_without_suspend_changes_nothing always_ok
           (bound_world lid_device_l4F ∅) lid_device_l4F).
  - reflexivity.
  - reflexivity.
  - vm_compute; reflexivity.
Defined.

Lemma cooperative_app oracle t l :
  cooperative oracle t -> cooperative oracle (t ++ l).
Proof.
  intros Hok i. rewrite length_app.
  replace (i + (length t + length l))%nat with ((i + length l) + length t)%nat
    by lia.
  apply Hok.
Qed.

Lemma cooperative_now oracle t : cooperative oracle t -> oracle (length t) = 0.
Proof. intros Hok. apply (Hok 0%nat). Qed.

(** A sequence of events on a registered wake source when the firmware
    accepts every call. *)
Lemma pm_sequence_ok oracle d es w :
  device_bound (core w) = true ->
  registered_lid w = Some d ->
  cooperative oracle (trace w) ->
  exists w',
    pm_sequence oracle es w = Some (tt, w')
    /\ core w' = core w
    /\ surface_gpe_device w' = surface_gpe_device w
    /\ trace w' = trace w ++ map (pm_call d) es
    /\ gpe_can_wake (acpi w') = gpe_can_wake (acpi w)
    /\ gpe_runtime_count (acpi w') = gpe_runtime_count (acpi w)
    /\ wake_armed w' (gpe_number d)
       = armed_after es (wake_armed w (gpe_number d)).
Proof.
  revert w. induction es as [|e es IH]; intros w Hb Hd Hok.
  - exists w. simpl. rewrite app_nil_r. by repeat split.
  - destruct (pm_hook_frame oracle e w d Hb Hd)
      as (status & w1 & Hrun & Hcases & Hfail & Hc & Hglob & Htrace & Hcw
          & Hrc & _ & Harmed & _).
    assert (status = 0) as ->.
    { destruct Hcases as [|He]; [done|]. apply Hfail in He.
      by destruct (He (cooperative_now _ _ Hok)). }
    destruct (IH w1) as (w' & Hrest & Hc' & Hglob' & Htrace' & Hcw' & Hrc'
                         & Harmed').
    { by rewrite Hc. }
    { unfold registered_lid in *. by rewrite Hc. }
    { rewrite Htrace. by apply cooperative_app. }
    exists w'. simpl. unfold bind. rewrite Hrun.
    split; [exact Hrest|]. split; [congruence|]. split; [congruence|].
    split; [by rewrite Htrace', Htrace, <- app_assoc|].
    split; [congruence|]. split; [congruence|].
    rewrite Harmed', (Harmed eq_refl).
    unfold armed_after. rewrite last_cons.
    destruct (last es) as [[|]|]; [reflexivity..|by destruct e].
Qed.

(** X11. With a firmware that accepts every call, whether a registered
    wake source is armed after any sequence of suspend and resume events
    depends on the last event only: armed after a suspend, disarmed after a
    resume, however many of either came before.  The log has grown by one
    wake mask call per event, and wake markings and reference counts are
    as before. *)
Theorem last_event_decides_arming oracle d es w :
  device_bound (core w) = true ->
  registered_lid w = Some d ->
  cooperative oracle (trace w) ->
  exists w',
    pm_sequence oracle es w = Some (tt, w')
    /\ wake_armed w' (gpe_number d)
       = armed_after es (wake_armed w (gpe_number d))
    /\ lifecycle_state w'
       = Registered (armed_after es (wake_armed w (gpe_number d)))
    /\ trace w' = trace w ++ map (pm_call d) es
    /\ gpe_can_wake (acpi w') = gpe_can_wake (acpi w)
    /\ gpe_runtime_count (acpi w') = gpe_runtime_count (acpi w).
Proof.
  intros Hb Hd Hok.
  destruct (pm_sequence_ok oracle d es w Hb Hd Hok)
    as (w' & Hrun & Hc & _ & Htrace & Hcw & Hrc & Harmed).
  exists w'. split; [exact Hrun|]. split; [exact Harmed|].
  split; [|by repeat split].
  unfold lifecycle_state, registered_lid in *. rewrite Hc, Hd.
  by rewrite Harmed.
Qed.

Lemma last_event_decides_arming_witness :
  exists w',
    pm_sequence always_ok [PmResume; PmSuspend; PmSuspend]
      (bound_world lid_device_l4F ∅) = Some (tt, w')
    /\ wake_armed w' 0x4F = true
    /\ trace w' = [AcpiSetGpeWakeMask 0x4F ACPI_GPE_DISABLE;
                   AcpiSetGpeWakeMask 0x4F ACPI_GPE_ENABLE;
                   AcpiSetGpeWakeMask 0x4F ACPI_GPE_ENABLE].
Proof.
  destruct (last_event_decides_arming always_ok lid_device_l4F
              [PmResume; PmSuspend; PmSuspend] (bound_world lid_device_l4F ∅))
    as (w' & Hrun & Harmed & _ & Htrace & _).
  - reflexivity.
  - reflexivity.
  - intros i. reflexivity.
  - exists w'. split; [exact Hrun|]. split; [exact Harmed | exact Htrace].
Defined.

(** ** A whole life with a firmware that accepts every call *)

Lemma on_teardown_ok oracle w pd d :
  device (core w) = Some pd ->
  drvdata pd = Some d ->
  device_bound (core w) = true ->
  surface_gpe_device w = true ->
  cooperative oracle (trace w) ->
  exists w',
    on_teardown oracle w = Some (tt, w')
    /\ trace w' = trace w ++ [PlatformDeviceUnregister] ++ cleanup_calls d
                   ++ [PlatformDriverUnregister]
    /\ core_idle (core w')
    /\ lifecycle_state w' = Unregistered
    /\ surface_gpe_device w' = true
    /\ gpe_can_wake (acpi w') = gpe_can_wake (acpi w)
    /\ wake_armed w' (gpe_number d) = false
    /\ runtime_count (acpi w') (gpe_number d)
       = Nat.pred (runtime_count (acpi w) (gpe_number d)).
Proof.
  intros Hdev Hdrv Hb Hglob Hok.
  destruct (surface_gpe_remove_run oracle (log PlatformDeviceUnregister w)
              pd d Hdev Hdrv) as (a' & Hrun & Hcw & Hmask & Hcount).
  pose proof (cooperative_app oracle _ [PlatformDeviceUnregister] Hok) as Hok1.
  pose proof (Hok1 0%nat) as H0. pose proof (Hok1 1%nat) as H1.
  simpl in H0, H1, Hmask, Hcount.
  rewrite (nonzero_eq0 _ H0) in Hmask. rewrite (nonzero_eq0 _ H1) in Hcount.
  unfold on_teardown, surface_gpe_exit, platform_device_unregister,
    platform_driver_unregister, extern, modify, bind, ret.
  rewrite Hglob. simpl. rewrite Hb, Hrun. simpl.
  eexists. split; [reflexivity|]. simpl.
  split; [by rewrite <- !app_assoc|].
  split; [by repeat split|]. split; [reflexivity|].
  split; [exact Hglob|]. split; [exact Hcw|]. split; [|exact Hcount].
  unfold wake_armed. simpl. rewrite Hmask. apply mask_cleared.
Qed.

(** X12. A whole life of the module on a matching machine, with a
    firmware and a platform bus that accept every call and any sequence of
    suspend and resume events.  The calls made are, in this order, the four
    bus calls of the set-up, the four firmware calls of the registration,
    one wake mask call per event, and for the unload the device
    unregistration, the two cleanup calls of [surface_gpe_remove] and the
    driver unregistration.  Afterwards the driver core holds nothing of the
    module, the GPE's reference count is what it was before loading and
    its wake mask bit is clear whatever the events were; the GPE stays
    marked for wake, and [surface_gpe_exit] does not reset the device
    pointer. *)
Theorem cooperative_lifetime_restores_firmware oracle id es w d :
  core_idle (core w) ->
  match_lid id dmi_lid_device_table = Some d ->
  cooperative oracle (trace w) ->
  exists w',
    module_lifetime oracle id es w = Some (0, w')
    /\ trace w' = trace w ++ setup_calls (Some d) ++ registration_calls d
                   ++ map (pm_call d) es
                   ++ [PlatformDeviceUnregister] ++ cleanup_calls d
                   ++ [PlatformDriverUnregister]
    /\ core_idle (core w')
    /\ lifecycle_state w' = Unregistered
    /\ runtime_count (acpi w') (gpe_number d)
       = runtime_count (acpi w) (gpe_number d)
    /\ wake_armed w' (gpe_number d) = false
    /\ gpe_number d ∈ gpe_can_wake (acpi w')
    /\ surface_gpe_device w' = true.
Proof.
  intros Hidle Hlid Hok.
  unfold match_lid in Hlid.
  destruct (dmi_first_match id dmi_lid_device_table) as [m|] eqn:Hm;
    [|discriminate Hlid].
  assert (Hok4 : forall i, (i < 4)%nat -> oracle (i + length (trace w))%nat = 0)
    by (intros i _; apply Hok).
  destruct (on_init_after_setup oracle id w m d Hidle Hm Hlid Hok4)
    as (sp & w2 & Hp & _ & Hinit & Hglob2 & Hc2).
  pose proof (cooperative_app oracle _ (setup_calls (Some d)) Hok) as Hok1.
  destruct (surface_gpe_probe_ok oracle (setup_world (Some d) w)
              {| platform_data := Some d; drvdata := None |} d
              eq_refl eq_refl) as (w2' & Hp' & Htrace2 & _ & _ & Hcw2 & Hrc2).
  { intros i _. apply Hok1. }
  rewrite Hp in Hp'. injection Hp' as -> <-.
  simpl in Hc2, Htrace2, Hrc2, Hinit.
  set (w1 := set_core (set_device_bound true (core w2)) w2) in *.
  assert (Hb1 : device_bound (core w1) = true) by reflexivity.
  assert (Hd1 : registered_lid w1 = Some d).
  { unfold registered_lid, w1. simpl. by rewrite Hc2. }
  assert (Hok2 : cooperative oracle (trace w1)).
  { unfold w1. simpl. rewrite Htrace2. by apply cooperative_app. }
  destruct (pm_sequence_ok oracle d es w1 Hb1 Hd1 Hok2)
    as (w3 & Hseq & Hc3 & Hglob3 & Htrace3 & Hcw3 & Hrc3 & _).
  destruct (on_teardown_ok oracle w3
              {| platform_data := Some d; drvdata := Some d |} d)
    as (w4 & Hexit & Htrace4 & Hc4 & Hstate4 & Hglob4 & Hcw4 & Hmask4 & Hrc4).
  { rewrite Hc3. unfold w1. simpl. by rewrite Hc2. }
  { reflexivity. }
  { by rewrite Hc3. }
  { by rewrite Hglob3. }
  { rewrite Htrace3. by apply cooperative_app. }
  exists w4. unfold module_lifetime, bind. rewrite Hinit, Hseq, Hexit.
  split; [reflexivity|].
  split.
  { rewrite Htrace4, Htrace3. unfold w1. simpl. rewrite Htrace2.
    by rewrite <- !app_assoc. }
  split; [exact Hc4|]. split; [exact Hstate4|].
  split.
  { rewrite Hrc4. unfold runtime_count at 1. rewrite Hrc3.
    fold (runtime_count (acpi w1) (gpe_number d)).
    unfold w1. simpl. by rewrite Hrc2. }
  split; [exact Hmask4|]. split; [|exact Hglob4].
  rewrite Hcw4, Hcw3. exact Hcw2.
Qed.

Lemma cooperative_lifetime_restores_firmware_witness :
  exists w',
    module_lifetime always_ok surface_pro_5 [PmSuspend; PmResume; PmSuspend]
      boot_world = Some (0, w')
    /\ core_idle (core w')
    /\ runtime_count (acpi w') 0x4F = 0%nat
    /\ wake_armed w' 0x4F = false
    /\ surface_gpe_device w' = true.
Proof.
  destruct (cooperative_lifetime_restores_firmware always_ok surface_pro_5
              [PmSuspend; PmResume; PmSuspend] boot_world lid_device_l4F)
    as (w' & Hrun & _ & Hc & _ & Hrc & Hmask & _ & Hglob).
  - repeat split.
  - vm_compute; reflexivity.
  - intros i. reflexivity.
  - exists w'. split; [exact Hrun|]. split; [exact Hc|].
    split; [exact Hrc|]. split; [exact Hmask | exact Hglob].
Defined.
